(** * The archive plugin ([lib/plugins/archive.js])

    A shallow embedding of the [Archive] class: the JavaScript values it
    inspects, the injected GitHub and logger capabilities as explicit
    state passing with a trace of calls, and its methods one by one. *)

From Stdlib Require Import ZArith String List Bool Lia.
Import ListNotations.
Open Scope string_scope.
Open Scope Z_scope.
Set Warnings "-register-all".

(** ** JavaScript values *)

Module JS.

(** The values the plugin can meet: settings come from a YAML document and
    repository data from a JSON response, so a value is JSON plus
    [undefined].  Numbers are the integers and NaN (fractions, infinities,
    BigInt, symbols and functions are not represented).  An object is its
    own properties in order, looked up first match first. *)
Inductive jsval : Type :=
| VUndefined
| VNull
| VBool (b : bool)
| VNum (n : Z)
| VNaN
| VStr (s : string)
| VObj (props : list (string * jsval))
| VArr (elems : list jsval).

(** A completion: the value of an expression or the value it throws. *)
Inductive outcome (A : Type) : Type :=
| Return (a : A)
| Throw (e : jsval).
Arguments Return {A} a.
Arguments Throw {A} e.

(** [typeof v] *)
Definition typeof (v : jsval) : string :=
  match v with
  | VUndefined => "undefined"
  | VNull => "object"
  | VBool _ => "boolean"
  | VNum _ | VNaN => "number"
  | VStr _ => "string"
  | VObj _ | VArr _ => "object"
  end.

(** ToBoolean: [undefined], [null], [false], [0], [NaN] and the empty string
    are falsy, everything else is truthy. *)
Definition truthy (v : jsval) : bool :=
  match v with
  | VUndefined | VNull | VNaN => false
  | VBool b => b
  | VNum n => negb (n =? 0)
  | VStr s => negb (s =? "")%string
  | VObj _ | VArr _ => true
  end.

(** [!v] *)
Definition js_not (v : jsval) : jsval := VBool (negb (truthy v)).

(** [a && b]: the left operand when it is falsy, the right one otherwise. *)
Definition js_and (a b : jsval) : jsval := if truthy a then b else a.

(** [a === b] where one side is a primitive, as everywhere in this source
    (the literals ['undefined'], [null], ['boolean'], ['true'], [404]).
    Objects compare by reference, which a value without identity cannot
    tell: they are never equal to a primitive, and never compared with each
    other here. *)
Definition strict_eq (a b : jsval) : bool :=
  match a, b with
  | VUndefined, VUndefined => true
  | VNull, VNull => true
  | VBool x, VBool y => Bool.eqb x y
  | VNum x, VNum y => (x =? y)
  | VStr x, VStr y => (x =? y)%string
  | _, _ => false
  end.

Fixpoint lookup (k : string) (props : list (string * jsval)) : jsval :=
  match props with
  | [] => VUndefined
  | (k', v) :: rest => if (k =? k')%string then v else lookup k rest
  end.

Definition is_nullish (v : jsval) : bool :=
  match v with
  | VUndefined | VNull => true
  | _ => false
  end.

(** What reading a property of [null] or [undefined] throws. *)
Definition TypeError : jsval := VObj [("name", VStr "TypeError")].

(** [v.k] for a named property [k] that no prototype defines ([archived],
    [status], [data]): an object's own property, [undefined] on a primitive
    or an array, a TypeError on [null] and [undefined]. *)
Definition get_prop (v : jsval) (k : string) : outcome jsval :=
  match v with
  | VUndefined | VNull => Throw TypeError
  | VObj props => Return (lookup k props)
  | _ => Return VUndefined
  end.

(** [v?.k]: [undefined] on [null] and [undefined], [v.k] otherwise. *)
Definition opt_chain (v : jsval) (k : string) : jsval :=
  match v with
  | VObj props => lookup k props
  | _ => VUndefined
  end.

(** A parameter default [(x = d)]: taken when the argument is [undefined]. *)
Definition default_param (arg d : jsval) : jsval :=
  match arg with
  | VUndefined => d
  | _ => arg
  end.

End JS.
Export JS.

(** ** Capabilities, calls and the monad of the methods *)

(** The [{ owner, repo }] pair the plugin is constructed with. *)
Module Repo.
Record t : Type := mk { owner : string; repo : string }.
End Repo.

(** [this.github.repos]: [get] and [update] act on the remote side, whose
    state has type [R]; their promise resolves to a response or rejects with
    a thrown value.  [update.endpoint] only describes a call. *)
Record Github (R : Type) : Type := {
  repos_get : jsval -> R -> outcome jsval * R;
  repos_update : jsval -> R -> outcome jsval * R;
  repos_update_endpoint : jsval -> outcome jsval
}.
Arguments repos_get {R} _ _ _.
Arguments repos_update {R} _ _ _.
Arguments repos_update_endpoint {R} _ _.

(** What the plugin does to its collaborators, in the order it does it. *)
Inductive Event : Type :=
| ReposGet (params : jsval)
| ReposUpdate (params : jsval)
| ReposUpdateEndpoint (params : jsval)
| LogDebug (args : list jsval)
| LogWarn (args : list jsval).

(** The fields the constructor sets (lines 4-10); [this.log] is the trace. *)
Record Archive (R : Type) : Type := {
  nop : bool;
  github : Github R;
  repo : Repo.t;
  settings : jsval
}.
Arguments nop {R} _.
Arguments github {R} _.
Arguments repo {R} _.
Arguments settings {R} _.

(** What a method can change: the field [this.repository] (unset, so
    [undefined], until [getState] or [sync] assigns it), the remote side and
    the calls made so far. *)
Record World (R : Type) : Type := {
  repository : jsval;
  remote : R;
  trace : list Event
}.
Arguments repository {R} _.
Arguments remote {R} _.
Arguments trace {R} _.
Arguments Build_World {R} _ _ _.

Definition M (R A : Type) : Type := World R -> outcome A * World R.

Definition ret {R A} (a : A) : M R A := fun w => (Return a, w).

Definition throw {R A} (e : jsval) : M R A := fun w => (Throw e, w).

Definition bind {R A B} (m : M R A) (k : A -> M R B) : M R B :=
  fun w =>
    match m w with
    | (Return a, w') => k a w'
    | (Throw e, w') => (Throw e, w')
    end.

(** [try { m } catch (error) { h error }] *)
Definition try_catch {R A} (m : M R A) (h : jsval -> M R A) : M R A :=
  fun w =>
    match m w with
    | (Return a, w') => (Return a, w')
    | (Throw e, w') => h e w'
    end.

Definition lift {R A} (o : outcome A) : M R A := fun w => (o, w).

Notation "x <- m ;; k" := (bind m (fun x => k))
  (at level 61, m at next level, right associativity).
Notation "m ;; k" := (bind m (fun _ => k))
  (at level 61, right associativity).

Definition emit {R} (e : Event) : M R unit :=
  fun w => (Return tt, Build_World (repository w) (remote w) (trace w ++ [e])).

Definition read_repository {R} : M R jsval := fun w => (Return (repository w), w).

Definition write_repository {R} (v : jsval) : M R unit :=
  fun w => (Return tt, Build_World v (remote w) (trace w)).

(** A call of [get] or [update] is recorded, then runs on the remote side. *)
Definition call_remote {R} (e : Event) (f : R -> outcome jsval * R) : M R jsval :=
  emit e ;;
  (fun w => let (o, r) := f (remote w) in (o, Build_World (repository w) r (trace w))).

(** ** The preview artifact *)

(** The literal of line 31. *)
Record ChangeRecord : Type := {
  msg : string;
  additions : list (string * jsval);
  modifications : list (string * jsval);
  deletions : list (string * jsval)
}.

(** Modelled from the spec: [lib/nopcommand.js], the class [NopCommand], is
    not part of the sources read here.  Its instance is the
    [PreviewArtifact] of the specification (section 6): the originating
    component name, the resource, the operation descriptor, the change and
    the level, which are the five constructor arguments of lines 32-38 in
    order. *)
Record NopCommand : Type := {
  source : string;
  resource : Repo.t;
  endpoint : jsval;
  change : ChangeRecord;
  level : string
}.

Definition new_NopCommand (pluginName : string) (r : Repo.t) (ep : jsval)
    (c : ChangeRecord) (type : string) : NopCommand :=
  {| source := pluginName; resource := r; endpoint := ep; change := c; level := type |}.

(** What [updateRepoArchiveStatus] resolves to, hence an element of the list
    [sync] returns: a [NopCommand] instance or a plain value. *)
Inductive entry : Type :=
| Artifact (c : NopCommand)
| Plain (v : jsval).

(** ** The methods of [Archive] *)

Section Methods.

Context {R : Type}.
Variable this : Archive R.

(** [{ owner: this.repo.owner, repo: this.repo.repo }] *)
Definition get_params : jsval :=
  VObj [("owner", VStr (Repo.owner (repo this)));
        ("repo", VStr (Repo.repo (repo this)))].

(** [{ owner: this.repo.owner, repo: this.repo.repo, archived }] *)
Definition update_params (archived : jsval) : jsval :=
  VObj [("owner", VStr (Repo.owner (repo this)));
        ("repo", VStr (Repo.repo (repo this)));
        ("archived", archived)].

(** [`${this.repo.owner}/${this.repo.repo}`] *)
Definition full_name : string :=
  Repo.owner (repo this) ++ "/" ++ Repo.repo (repo this).

(** Lines 12-25. *)
Definition getRepo : M R jsval :=
  try_catch
    (response <- call_remote (ReposGet get_params)
                   (repos_get (github this) get_params) ;;
     data <- lift (get_prop response "data") ;;
     ret data)
    (fun error =>
       status <- lift (get_prop error "status") ;;
       if strict_eq status (VNum 404) then ret VNull else throw error).

(** Lines 27-48.  In apply mode the method ends without a [return]: it
    resolves to [undefined]. *)
Definition updateRepoArchiveStatus (archived : jsval) : M R entry :=
  let action := if truthy archived then "archive" else "unarchive" in
  if nop this then
    let change :=
      {| msg := "Change found"; additions := [];
         modifications := [("archived", VStr action)]; deletions := [] |} in
    ep <- (emit (ReposUpdateEndpoint (settings this)) ;;
           lift (repos_update_endpoint (github this) (settings this))) ;;
    ret (Artifact (new_NopCommand "Archive" (repo this) ep change "INFO"))
  else
    response <- call_remote (ReposUpdate (update_params archived))
                  (repos_update (github this) (update_params archived)) ;;
    data <- lift (get_prop response "data") ;;
    emit (LogDebug [VObj [("result", data)];
                    VStr ("Repo " ++ full_name ++ " " ++ action ++ "d")]) ;;
    ret (Plain VUndefined).

(** Lines 50-57. *)
Definition getDesiredArchiveState : M R jsval :=
  if strict_eq (VStr (typeof (opt_chain (settings this) "archived")))
               (VStr "undefined")
  then ret VNull
  else
    a <- lift (get_prop (settings this) "archived") ;;
    if strict_eq (VStr (typeof a)) (VStr "boolean")
    then lift (get_prop (settings this) "archived")
    else
      a' <- lift (get_prop (settings this) "archived") ;;
      ret (VBool (strict_eq a' (VStr "true"))).

(** Lines 59-63; [arg] is [undefined] when the call passes no argument. *)
Definition shouldArchive (arg : jsval) : M R jsval :=
  r <- read_repository ;;
  let repository := default_param arg r in
  desiredState <- getDesiredArchiveState ;;
  if strict_eq desiredState VNull then ret (VBool false)
  else ret (js_and (js_not (opt_chain repository "archived")) desiredState).

(** Lines 65-69. *)
Definition shouldUnarchive (arg : jsval) : M R jsval :=
  r <- read_repository ;;
  let repository := default_param arg r in
  desiredState <- getDesiredArchiveState ;;
  if strict_eq desiredState VNull then ret (VBool false)
  else ret (js_and (opt_chain repository "archived") (js_not desiredState)).

(** Lines 71-73. *)
Definition isArchived : M R jsval :=
  r <- read_repository ;;
  ret (opt_chain r "archived").

(** Lines 75-83. *)
Definition getState : M R jsval :=
  r <- getRepo ;;
  write_repository r ;;
  a <- isArchived ;;
  b <- shouldArchive VUndefined ;;
  c <- shouldUnarchive VUndefined ;;
  ret (VObj [("isArchived", a); ("shouldArchive", b); ("shouldUnarchive", c)]).

(** Lines 85-107. *)
Definition sync : M R (list entry) :=
  r <- getRepo ;;
  write_repository r ;;
  let results : list entry := [] in
  r <- read_repository ;;
  if negb (truthy r) then
    emit (LogWarn [VStr ("Repo " ++ full_name ++ " not found, skipping archive sync")]) ;;
    ret results
  else
    shouldArchive_ <- shouldArchive VUndefined ;;
    shouldUnarchive_ <- shouldUnarchive VUndefined ;;
    if negb (truthy shouldArchive_) && negb (truthy shouldUnarchive_) then
      emit (LogDebug [VStr ("No archive changes needed for " ++ full_name)]) ;;
      ret results
    else
      let archived := shouldArchive_ in
      x <- updateRepoArchiveStatus archived ;;
      ret (results ++ [x])%list.

End Methods.

(** ** The decision and the desired state, as the specification names them *)

(** The tri-state desired value; [getDesiredArchiveState] returns it as
    [null], [true] or [false]. *)
Inductive DesiredState : Type := Unset | True_ | False_.

Definition js_of_desired (d : DesiredState) : jsval :=
  match d with
  | Unset => VNull
  | True_ => VBool true
  | False_ => VBool false
  end.

(** The State Normalizer in the words of the specification (section 4.1):
    [undefined] gives [Unset], a boolean itself, the exact string ["true"]
    gives [True], anything else [False]. *)
Definition normalize (rawValue : jsval) : DesiredState :=
  match rawValue with
  | VUndefined => Unset
  | VBool true => True_
  | VBool false => False_
  | VStr s => if (s =? "true")%string then True_ else False_
  | _ => False_
  end.

Inductive ReconciliationAction : Type := ActNone | ActArchive | ActUnarchive.

(** What [sync] does with the two answers: nothing when both are falsy
    (line 98); otherwise [archived = shouldArchive] (line 103) is sent, and
    named ['archive'] when truthy, ['unarchive'] when not (line 28). *)
Definition decision (shouldArchive_ shouldUnarchive_ : jsval) : ReconciliationAction :=
  if negb (truthy shouldArchive_) && negb (truthy shouldUnarchive_) then ActNone
  else if truthy shouldArchive_ then ActArchive else ActUnarchive.

(** [repository?.archived] of the repository a decision method looks at. *)
Definition observed_archived {R} (arg : jsval) (w : World R) : jsval :=
  opt_chain (default_param arg (repository w)) "archived".

(** [settings?.archived] *)
Definition raw_archived {R} (this : Archive R) : jsval :=
  opt_chain (settings this) "archived".

(** ** A test double for the remote side

    One repository, present with its data or absent; [get] answers as the
    REST API does, [update] stores the [archived] parameter, and the
    endpoint accessor describes a call by its method, route and body. *)
Module Double.

Definition store : Type := option (list (string * jsval)).

Definition not_found : jsval := VObj [("status", VNum 404)].

Definition server_error : jsval := VObj [("status", VNum 500)].

Fixpoint set_prop (k : string) (v : jsval) (props : list (string * jsval))
  : list (string * jsval) :=
  match props with
  | [] => [(k, v)]
  | (k', v') :: rest =>
      if (k =? k')%string then (k, v) :: rest else (k', v') :: set_prop k v rest
  end.

Definition get (params : jsval) (r : store) : outcome jsval * store :=
  match r with
  | Some data => (Return (VObj [("data", VObj data)]), r)
  | None => (Throw not_found, r)
  end.

Definition update (params : jsval) (r : store) : outcome jsval * store :=
  match r with
  | Some data =>
      let data' := set_prop "archived" (opt_chain params "archived") data in
      (Return (VObj [("data", VObj data')]), Some data')
  | None => (Throw not_found, r)
  end.

Definition describe (params : jsval) : outcome jsval :=
  Return (VObj [("method", VStr "PATCH"); ("url", VStr "/repos/{owner}/{repo}");
                ("body", params)]).

Definition octokit : Github store :=
  {| repos_get := get; repos_update := update; repos_update_endpoint := describe |}.

(** A remote side whose [get] always fails with status 500. *)
Definition broken : Github store :=
  {| repos_get := fun _ r => (Throw server_error, r);
     repos_update := update; repos_update_endpoint := describe |}.

Definition test_repo : Repo.t := Repo.mk "test-owner" "test-repo".

Definition plugin (nop_ : bool) (settings_ : jsval) : Archive store :=
  {| nop := nop_; github := octokit; repo := test_repo; settings := settings_ |}.

Definition start (r : store) : World store :=
  {| repository := VUndefined; remote := r; trace := [] |}.

End Double.

(** ** Closed forms and observations used in the statements *)

(** The value of [!repository?.archived && desiredState] (lines 61-62). *)
Definition archive_answer (d : DesiredState) (observed : jsval) : jsval :=
  match d with
  | Unset => VBool false
  | _ => js_and (js_not observed) (js_of_desired d)
  end.

(** The value of [repository?.archived && !desiredState] (lines 67-68). *)
Definition unarchive_answer (d : DesiredState) (observed : jsval) : jsval :=
  match d with
  | Unset => VBool false
  | _ => js_and observed (js_not (js_of_desired d))
  end.

(** The parameters of the [update] calls in a trace, in order. *)
Fixpoint updates_in (evs : list Event) : list jsval :=
  match evs with
  | [] => []
  | ReposUpdate p :: rest => p :: updates_in rest
  | _ :: rest => updates_in rest
  end.

(** The same plugin constructed in the other mode. *)
Definition with_nop {R} (b : bool) (this : Archive R) : Archive R :=
  {| nop := b; github := github this; repo := repo this; settings := settings this |}.

(** The world after the fetch of [sync] and [getState]: the call is
    recorded, the remote side is as the call left it, and [this.repository]
    holds what [getRepo] returned. *)
Definition fetched {R} (this : Archive R) (w : World R) (r' : R) (data : jsval)
  : World R :=
  {| repository := data; remote := r'; trace := trace w ++ [ReposGet (get_params this)] |}.

Definition logged {R} (w : World R) (evs : list Event) : World R :=
  {| repository := repository w; remote := remote w; trace := trace w ++ evs |}.

(** The two messages of [sync] (lines 91 and 99). *)
Definition no_change_message {R} (this : Archive R) : Event :=
  LogDebug [VStr ("No archive changes needed for " ++ full_name this)].

Definition not_found_message {R} (this : Archive R) : Event :=
  LogWarn [VStr ("Repo " ++ full_name this ++ " not found, skipping archive sync")].

(** The name of the action (line 28) and the change literal (line 31). *)
Definition action_name (archived : jsval) : string :=
  if truthy archived then "archive" else "unarchive".

Definition change_found (archived : jsval) : ChangeRecord :=
  {| msg := "Change found"; additions := [];
     modifications := [("archived", VStr (action_name archived))]; deletions := [] |}.

(** The artifact of lines 32-38, given the descriptor the accessor returned. *)
Definition preview_of {R} (this : Archive R) (archived ep : jsval) : NopCommand :=
  new_NopCommand "Archive" (repo this) ep (change_found archived) "INFO".

(** The debug entry of line 47. *)
Definition done_message {R} (this : Archive R) (archived data : jsval) : Event :=
  LogDebug [VObj [("result", data)];
            VStr ("Repo " ++ full_name this ++ " " ++ action_name archived ++ "d")].

(** The world after the [update] call of apply mode succeeded. *)
Definition applied {R} (this : Archive R) (w : World R) (r' : R)
    (archived data : jsval) : World R :=
  {| repository := repository w; remote := r';
     trace := trace w ++ [ReposUpdate (update_params this archived);
                          done_message this archived data] |}.

(** What [getDesiredArchiveState] returns, as a value of the settings. *)
Definition desired_state {R} (this : Archive R) : jsval :=
  js_of_desired (normalize (raw_archived this)).

(** The repository already complies: no policy is set, or the observed
    attribute is truthy exactly when the desired state is [true]. *)
Definition compliant (desired observed : jsval) : bool :=
  match desired with
  | VNull => true
  | _ => Bool.eqb (truthy observed) (truthy desired)
  end.

(** ** Two properties as the specification states them *)

(** Apply mode returns the remote response, or an equivalent success
    marker: the response, its data, or at least a truthy value. *)
Definition apply_returns_response {R} (this : Archive R) (archived : jsval)
    (w : World R) : Prop :=
  forall response r',
    nop this = false ->
    repos_update (github this) (update_params this archived) (remote w)
    = (Return response, r') ->
    exists v w',
      updateRepoArchiveStatus this archived w = (Return (Plain v), w')
      /\ (v = response \/ get_prop response "data" = Return v \/ truthy v = true).

(** The preview is built from the parameters apply mode sends: its
    endpoint is the descriptor of the [update] call apply mode makes, and its
    [modifications.archived] names the [archived] value of that call. *)
Definition preview_from_apply_params {R} (this : Archive R) (w : World R) : Prop :=
  forall c w1 p,
    sync (with_nop true this) w = (Return [Artifact c], w1) ->
    In p (updates_in (trace (snd (sync (with_nop false this) w)))) ->
    repos_update_endpoint (github this) p = Return (endpoint c)
    /\ (lookup "archived" (modifications (change c)) = VStr "archive"
        <-> opt_chain p "archived" = VBool true)
    /\ (lookup "archived" (modifications (change c)) = VStr "unarchive"
        <-> opt_chain p "archived" = VBool false).

(** ** Observations and doubles for the remaining behaviour *)

(** The catch block of [getRepo] (lines 19-24) on the caught value. *)
Definition caught (error : jsval) : outcome jsval :=
  match get_prop error "status" with
  | Return status => if strict_eq status (VNum 404) then Return VNull else Throw error
  | Throw e => Throw e
  end.

(** What [getRepo] completes with, from what the [get] call completed with
    (lines 13-24): the destructuring of the response is inside the [try]. *)
Definition fetch_outcome (o : outcome jsval) : outcome jsval :=
  match o with
  | Return response =>
      match get_prop response "data" with
      | Return data => Return data
      | Throw e => caught e
      end
  | Throw error => caught error
  end.

(** Doubles of the remote side that answer a fixed way. *)
Module Stub.

(** [get] resolves to the given response, whatever is stored. *)
Definition answering (response : jsval) : Github Double.store :=
  {| repos_get := fun _ r => (Return response, r);
     repos_update := Double.update;
     repos_update_endpoint := Double.describe |}.

(** [get] rejects with the given value. *)
Definition rejecting (error : jsval) : Github Double.store :=
  {| repos_get := fun _ r => (Throw error, r);
     repos_update := Double.update;
     repos_update_endpoint := Double.describe |}.

Definition forbidden : jsval := VObj [("status", VNum 403)].

(** [update] is refused, and the endpoint accessor throws. *)
Definition read_only : Github Double.store :=
  {| repos_get := Double.get;
     repos_update := fun _ r => (Throw forbidden, r);
     repos_update_endpoint := fun _ => Throw TypeError |}.

Definition plugin (gh : Github Double.store) (nop_ : bool) (settings_ : jsval)
  : Archive Double.store :=
  {| nop := nop_; github := gh; repo := Double.test_repo; settings := settings_ |}.

End Stub.

(** The State Fetcher as the specification states it: on any failure of
    the remote [get], [null] when the status is 404, and otherwise the
    failure itself, unchanged. *)
Definition rethrows_every_other_failure {R} (this : Archive R) (w : World R) : Prop :=
  forall error r',
    repos_get (github this) (get_params this) (remote w) = (Throw error, r') ->
    fst (getRepo this w)
    = if strict_eq (opt_chain error "status") (VNum 404)
      then Return VNull else Throw error.

(** ** Running the methods: the equations the proofs share *)

Ltac unfold_monad :=
  unfold call_remote in *;
  unfold bind, ret, throw, lift, try_catch, emit, read_repository,
    write_repository in *.

Lemma typeof_undefined (v : jsval) :
  strict_eq (VStr (typeof v)) (VStr "undefined") = true <-> v = VUndefined.
Proof. destruct v; simpl; split; intro H; try reflexivity; discriminate H. Qed.

(** On a value that is neither [null] nor [undefined], [v.k] is [v?.k]. *)
Lemma get_prop_opt_chain (v : jsval) (k : string) :
  is_nullish v = false -> get_prop v k = Return (opt_chain v k).
Proof. destruct v; simpl; intro H; try reflexivity; discriminate H. Qed.

Lemma opt_chain_defined_not_nullish (v : jsval) (k : string) :
  opt_chain v k <> VUndefined -> is_nullish v = false.
Proof. destruct v; simpl; intro H; try reflexivity; now elim H. Qed.

(** Only a value that has properties can carry [status: 404]. *)
Lemma status_404_not_nullish (error : jsval) :
  strict_eq (opt_chain error "status") (VNum 404) = true -> is_nullish error = false.
Proof. destruct error; simpl; intro H; try reflexivity; discriminate H. Qed.

Section Runs.

Context {R : Type}.
Variable this : Archive R.

(** The normalizer never throws and leaves the world alone. *)
Lemma getDesiredArchiveState_run (w : World R) :
  getDesiredArchiveState this w
  = (Return (js_of_desired (normalize (raw_archived this))), w).
Proof.
  unfold getDesiredArchiveState, raw_archived.
  destruct (strict_eq (VStr (typeof (opt_chain (settings this) "archived")))
                      (VStr "undefined")) eqn:Hu.
  - apply typeof_undefined in Hu. rewrite Hu. reflexivity.
  - assert (Hd : opt_chain (settings this) "archived" <> VUndefined).
    { intro E. rewrite E in Hu. discriminate Hu. }
    pose proof (opt_chain_defined_not_nullish _ _ Hd) as Hn.
    unfold_monad. rewrite (get_prop_opt_chain _ "archived" Hn).
    destruct (opt_chain (settings this) "archived") as [| |[|]| | |s| |];
      simpl; try reflexivity.
    + now elim Hd.
    + destruct (s =? "true")%string; reflexivity.
Qed.

Lemma shouldArchive_run (arg : jsval) (w : World R) :
  shouldArchive this arg w
  = (Return (archive_answer (normalize (raw_archived this)) (observed_archived arg w)), w).
Proof.
  unfold shouldArchive, bind at 1, read_repository, bind.
  rewrite getDesiredArchiveState_run.
  destruct (normalize (raw_archived this)); reflexivity.
Qed.

Lemma shouldUnarchive_run (arg : jsval) (w : World R) :
  shouldUnarchive this arg w
  = (Return (unarchive_answer (normalize (raw_archived this)) (observed_archived arg w)), w).
Proof.
  unfold shouldUnarchive, bind at 1, read_repository, bind.
  rewrite getDesiredArchiveState_run.
  destruct (normalize (raw_archived this)); reflexivity.
Qed.

(** [shouldArchive] always answers with a boolean. *)
Lemma archive_answer_bool (d : DesiredState) (observed : jsval) :
  archive_answer d observed
  = VBool (match d with True_ => negb (truthy observed) | _ => false end).
Proof. destruct d; simpl; unfold js_and, js_not; simpl; destruct (truthy observed); reflexivity. Qed.

Lemma unarchive_answer_truthy (d : DesiredState) (observed : jsval) :
  truthy (unarchive_answer d observed)
  = match d with False_ => truthy observed | _ => false end.
Proof.
  destruct d; simpl; unfold js_and, js_not; simpl;
    destruct (truthy observed) eqn:E; simpl; try rewrite E; reflexivity.
Qed.

(** The decision, from the desired state and the observed attribute. *)
Lemma decision_run (d : DesiredState) (observed : jsval) :
  decision (archive_answer d observed) (unarchive_answer d observed)
  = match d with
    | Unset => ActNone
    | True_ => if truthy observed then ActNone else ActArchive
    | False_ => if truthy observed then ActUnarchive else ActNone
    end.
Proof.
  unfold decision. rewrite unarchive_answer_truthy, archive_answer_bool.
  destruct d; simpl; destruct (truthy observed); reflexivity.
Qed.

End Runs.

Section SyncRuns.

Context {R : Type}.
Variable this : Archive R.

Lemma getRepo_found (w : World R) (response data : jsval) (r' : R) :
  repos_get (github this) (get_params this) (remote w) = (Return response, r') ->
  get_prop response "data" = Return data ->
  getRepo this w = (Return data, fetched this w r' (repository w)).
Proof.
  intros Hget Hdata. unfold getRepo. unfold_monad. simpl.
  rewrite Hget, Hdata. reflexivity.
Qed.

Lemma getRepo_failed (w : World R) (error : jsval) (r' : R) :
  repos_get (github this) (get_params this) (remote w) = (Throw error, r') ->
  is_nullish error = false ->
  getRepo this w
  = (if strict_eq (opt_chain error "status") (VNum 404)
     then Return VNull else Throw error,
     fetched this w r' (repository w)).
Proof.
  intros Hget Hn. unfold getRepo. unfold_monad. simpl.
  rewrite Hget, (get_prop_opt_chain _ "status" Hn).
  destruct (strict_eq (opt_chain error "status") (VNum 404)); reflexivity.
Qed.

(** [getRepo] touches neither [this.repository] nor the earlier trace. *)
Lemma getRepo_world (w : World R) :
  snd (getRepo this w)
  = fetched this w (snd (repos_get (github this) (get_params this) (remote w)))
      (repository w).
Proof.
  unfold getRepo. unfold_monad. simpl.
  destruct (repos_get (github this) (get_params this) (remote w)) as [[response|e] r'];
    simpl.
  - destruct (get_prop response "data") as [d|e]; simpl; [reflexivity|].
    destruct (get_prop e "status") as [s|e']; simpl;
      [destruct (strict_eq s (VNum 404))|]; reflexivity.
  - destruct (get_prop e "status") as [s|e']; simpl;
      [destruct (strict_eq s (VNum 404))|]; reflexivity.
Qed.

(** [sync], step by step after the fetch. *)
Lemma sync_run (w : World R) :
  sync this w
  = match getRepo this w with
    | (Throw e, w1) => (Throw e, w1)
    | (Return data, w1) =>
        let w2 := Build_World data (remote w1) (trace w1) in
        if truthy data then
          match decision (archive_answer (normalize (raw_archived this))
                            (opt_chain data "archived"))
                         (unarchive_answer (normalize (raw_archived this))
                            (opt_chain data "archived")) with
          | ActNone => (Return [], logged w2 [no_change_message this])
          | ActArchive =>
              match updateRepoArchiveStatus this (VBool true) w2 with
              | (Return x, w3) => (Return [x], w3)
              | (Throw e, w3) => (Throw e, w3)
              end
          | ActUnarchive =>
              match updateRepoArchiveStatus this (VBool false) w2 with
              | (Return x, w3) => (Return [x], w3)
              | (Throw e, w3) => (Throw e, w3)
              end
          end
        else (Return [], logged w2 [not_found_message this])
    end.
Proof.
  unfold sync. unfold bind at 1.
  destruct (getRepo this w) as [[data|e] w1]; [|reflexivity].
  unfold bind at 1, write_repository. unfold bind at 1, read_repository.
  cbv zeta. cbn [repository].
  destruct (truthy data) eqn:Ht; cbn [negb].
  - unfold bind at 1. rewrite shouldArchive_run.
    unfold bind at 1. rewrite shouldUnarchive_run.
    unfold observed_archived. cbn [repository default_param].
    rewrite decision_run.
    rewrite archive_answer_bool.
    pose proof (unarchive_answer_truthy (normalize (raw_archived this))
                  (opt_chain data "archived")) as Hu.
    destruct (normalize (raw_archived this)); cbn [truthy negb andb];
      rewrite ?Hu; cbn [negb andb].
    + reflexivity.
    + destruct (truthy (opt_chain data "archived")); cbn [negb andb truthy].
      * reflexivity.
      * unfold bind. cbn [app].
        destruct (updateRepoArchiveStatus this (VBool true) _) as [[x|e] w3];
          reflexivity.
    + destruct (truthy (opt_chain data "archived")); cbn [negb andb truthy].
      * unfold bind. cbn [app].
        destruct (updateRepoArchiveStatus this (VBool false) _) as [[x|e] w3];
          reflexivity.
      * reflexivity.
  - reflexivity.
Qed.

End SyncRuns.

Section UpdateRuns.

Context {R : Type}.
Variable this : Archive R.

Lemma updates_in_app (xs ys : list Event) :
  updates_in (xs ++ ys) = (updates_in xs ++ updates_in ys)%list.
Proof.
  induction xs as [|e xs IH]; [reflexivity|].
  destruct e; simpl; rewrite IH; reflexivity.
Qed.

Lemma update_preview (archived ep : jsval) (w : World R) :
  nop this = true ->
  repos_update_endpoint (github this) (settings this) = Return ep ->
  updateRepoArchiveStatus this archived w
  = (Return (Artifact (preview_of this archived ep)),
     logged w [ReposUpdateEndpoint (settings this)]).
Proof.
  intros Hnop Hep. unfold updateRepoArchiveStatus. rewrite Hnop.
  unfold_monad. simpl. rewrite Hep. reflexivity.
Qed.

Lemma update_apply (archived response data : jsval) (w : World R) (r' : R) :
  nop this = false ->
  repos_update (github this) (update_params this archived) (remote w)
  = (Return response, r') ->
  get_prop response "data" = Return data ->
  updateRepoArchiveStatus this archived w
  = (Return (Plain VUndefined), applied this w r' archived data).
Proof.
  intros Hnop Hup Hdata. unfold updateRepoArchiveStatus. rewrite Hnop.
  unfold_monad. simpl. rewrite Hup, Hdata. unfold applied. simpl.
  rewrite <- app_assoc. reflexivity.
Qed.

(** Apply mode calls [update] once, whatever the call answers. *)
Lemma update_apply_calls (archived : jsval) (w : World R) :
  nop this = false ->
  updates_in (trace (snd (updateRepoArchiveStatus this archived w)))
  = (updates_in (trace w) ++ [update_params this archived])%list.
Proof.
  intros Hnop. unfold updateRepoArchiveStatus. rewrite Hnop.
  unfold_monad. simpl.
  destruct (repos_update (github this) (update_params this archived) (remote w))
    as [[response|e] r']; simpl.
  - destruct (get_prop response "data"); simpl;
      rewrite ?updates_in_app; simpl; rewrite ?app_nil_r; reflexivity.
  - rewrite updates_in_app. reflexivity.
Qed.

End UpdateRuns.

Section SyncCases.

Context {R : Type}.
Variable this : Archive R.

Lemma decision_compliant (observed : jsval) :
  decision (archive_answer (normalize (raw_archived this)) observed)
           (unarchive_answer (normalize (raw_archived this)) observed)
  = if compliant (desired_state this) observed then ActNone
    else if truthy (desired_state this) then ActArchive else ActUnarchive.
Proof.
  rewrite decision_run. unfold desired_state.
  destruct (normalize (raw_archived this)); simpl;
    destruct (truthy observed); reflexivity.
Qed.

(** A repository whose attribute is the desired state complies. *)
Lemma compliant_same (d : jsval) : compliant d d = true.
Proof. destruct d; simpl; try reflexivity; apply Bool.eqb_reflx. Qed.

(** When the decision is to act, the desired state is a boolean. *)
Lemma acting_desired_bool (observed : jsval) :
  compliant (desired_state this) observed = false ->
  desired_state this = VBool (truthy (desired_state this)).
Proof.
  unfold desired_state. destruct (normalize (raw_archived this)); simpl;
    intro H; try reflexivity; discriminate H.
Qed.

(** The fetch failed with status 404: a warning, an empty list. *)
Lemma sync_not_found (w : World R) (error : jsval) (r' : R) :
  repos_get (github this) (get_params this) (remote w) = (Throw error, r') ->
  strict_eq (opt_chain error "status") (VNum 404) = true ->
  sync this w
  = (Return [], logged (fetched this w r' VNull) [not_found_message this]).
Proof.
  intros Hget H404. pose proof (status_404_not_nullish error H404) as Hn.
  rewrite sync_run, (getRepo_failed this w error r' Hget Hn), H404.
  reflexivity.
Qed.

(** The fetch gave a falsy value for the repository: the same warning. *)
Lemma sync_no_data (w : World R) (response data : jsval) (r' : R) :
  repos_get (github this) (get_params this) (remote w) = (Return response, r') ->
  get_prop response "data" = Return data ->
  truthy data = false ->
  sync this w
  = (Return [], logged (fetched this w r' data) [not_found_message this]).
Proof.
  intros Hget Hdata Ht.
  rewrite sync_run, (getRepo_found this w response data r' Hget Hdata).
  cbv zeta. rewrite Ht. reflexivity.
Qed.

(** The fetch gave a repository that complies: a debug entry, an empty list. *)
Lemma sync_skips (w : World R) (response data : jsval) (r' : R) :
  repos_get (github this) (get_params this) (remote w) = (Return response, r') ->
  get_prop response "data" = Return data ->
  truthy data = true ->
  compliant (desired_state this) (opt_chain data "archived") = true ->
  sync this w
  = (Return [], logged (fetched this w r' data) [no_change_message this]).
Proof.
  intros Hget Hdata Ht Hc.
  rewrite sync_run, (getRepo_found this w response data r' Hget Hdata).
  cbv zeta. rewrite Ht, decision_compliant, Hc. reflexivity.
Qed.

(** The fetch gave a repository that does not comply: the executor runs
    with [archived] the desired state, and its result is the one entry. *)
Lemma sync_acts (w : World R) (response data : jsval) (r' : R) :
  repos_get (github this) (get_params this) (remote w) = (Return response, r') ->
  get_prop response "data" = Return data ->
  truthy data = true ->
  compliant (desired_state this) (opt_chain data "archived") = false ->
  sync this w
  = match updateRepoArchiveStatus this (desired_state this) (fetched this w r' data) with
    | (Return x, w3) => (Return [x], w3)
    | (Throw e, w3) => (Throw e, w3)
    end.
Proof.
  intros Hget Hdata Ht Hc.
  rewrite sync_run, (getRepo_found this w response data r' Hget Hdata).
  cbv zeta. rewrite Ht, decision_compliant, Hc.
  pose proof (acting_desired_bool _ Hc) as Hb.
  destruct (truthy (desired_state this)); rewrite Hb; reflexivity.
Qed.

End SyncCases.

Section Inversions.

Context {R : Type}.
Variable this : Archive R.

(** A [sync] that returned one entry fetched a repository that does not
    comply and ran the executor with the desired state. *)
Lemma sync_one_inv (w w1 : World R) (x : entry) :
  sync this w = (Return [x], w1) ->
  exists data w0,
    getRepo this w = (Return data, w0)
    /\ truthy data = true
    /\ compliant (desired_state this) (opt_chain data "archived") = false
    /\ updateRepoArchiveStatus this (desired_state this)
         (Build_World data (remote w0) (trace w0)) = (Return x, w1).
Proof.
  rewrite sync_run.
  destruct (getRepo this w) as [[data|e] w0]; [|discriminate].
  cbv zeta. destruct (truthy data) eqn:Ht; [|discriminate].
  rewrite decision_compliant.
  destruct (compliant (desired_state this) (opt_chain data "archived")) eqn:Hc;
    [discriminate|].
  pose proof (acting_desired_bool this _ Hc) as Hb.
  intros H. exists data, w0. split; [reflexivity|]. split; [exact Ht|].
  split; [exact Hc|]. rewrite Hb.
  destruct (truthy (desired_state this));
    destruct (updateRepoArchiveStatus _ _ _) as [[y|e] w3];
    try discriminate; injection H as -> ->; reflexivity.
Qed.

Lemma update_apply_inv (archived : jsval) (w w' : World R) (x : entry) :
  nop this = false ->
  updateRepoArchiveStatus this archived w = (Return x, w') ->
  exists response data r',
    repos_update (github this) (update_params this archived) (remote w)
    = (Return response, r')
    /\ get_prop response "data" = Return data
    /\ x = Plain VUndefined
    /\ w' = applied this w r' archived data.
Proof.
  intros Hnop. unfold updateRepoArchiveStatus. rewrite Hnop.
  unfold_monad. simpl.
  destruct (repos_update (github this) (update_params this archived) (remote w))
    as [[response|e] r']; [|discriminate].
  destruct (get_prop response "data") as [data|e] eqn:Hdata; [|discriminate].
  intros H. injection H as <- <-. exists response, data, r'.
  split; [reflexivity|]. split; [exact Hdata|]. split; [reflexivity|].
  unfold applied. simpl. rewrite <- app_assoc. reflexivity.
Qed.

Lemma update_preview_inv (archived : jsval) (w w' : World R) (x : entry) :
  nop this = true ->
  updateRepoArchiveStatus this archived w = (Return x, w') ->
  exists ep,
    repos_update_endpoint (github this) (settings this) = Return ep
    /\ x = Artifact (preview_of this archived ep)
    /\ w' = logged w [ReposUpdateEndpoint (settings this)].
Proof.
  intros Hnop. unfold updateRepoArchiveStatus. rewrite Hnop.
  unfold_monad. simpl.
  destruct (repos_update_endpoint (github this) (settings this)) as [ep|e];
    [|discriminate].
  intros H. injection H as <- <-. exists ep. repeat split.
Qed.

End Inversions.

Lemma append_assoc (a b c : string) : ((a ++ b) ++ c = a ++ b ++ c)%string.
Proof. induction a as [|ch a IH]; simpl; [reflexivity|]. now rewrite IH. Qed.

(** The text of the debug entry of line 47. *)
Lemma done_message_text {R} (this : Archive R) (a : bool) (data : jsval) :
  done_message this (VBool a) data
  = LogDebug [VObj [("result", data)];
              VStr ("Repo " ++ Repo.owner (repo this) ++ "/" ++ Repo.repo (repo this)
                    ++ (if a then " archived" else " unarchived"))].
Proof.
  unfold done_message, full_name, action_name. simpl.
  rewrite !append_assoc. destruct a; reflexivity.
Qed.

(** The test double stores what [update] sends, and [get] shows it. *)
Lemma lookup_set_prop (k : string) (v : jsval) (props : list (string * jsval)) :
  lookup k (Double.set_prop k v props) = v.
Proof.
  induction props as [|[k' v'] rest IH]; simpl.
  - rewrite String.eqb_refl. reflexivity.
  - destruct (k =? k')%string eqn:E; simpl.
    + rewrite String.eqb_refl. reflexivity.
    + rewrite E. exact IH.
Qed.

Lemma double_get_after_update (nop_ : bool) (settings_ archived : jsval)
    (r r' : Double.store) (response : jsval) :
  repos_update (github (Double.plugin nop_ settings_))
    (update_params (Double.plugin nop_ settings_) archived) r = (Return response, r') ->
  exists response' data r'',
    repos_get (github (Double.plugin nop_ settings_))
      (get_params (Double.plugin nop_ settings_)) r' = (Return response', r'')
    /\ get_prop response' "data" = Return data
    /\ truthy data = true
    /\ opt_chain data "archived" = archived.
Proof.
  destruct r as [props|]; simpl; [|discriminate].
  intros H. injection H as _ <-.
  do 3 eexists. split; [reflexivity|]. split; [reflexivity|]. split; [reflexivity|].
  simpl. apply lookup_set_prop.
Qed.

(** ** The State Normalizer *)

(** C4: [getDesiredArchiveState] never throws and changes nothing; it returns
    [null] (Unset) when [settings?.archived] is [undefined] or absent, a
    boolean itself, [true] for the exact string ["true"], and [false] for
    every other value; this is the normalizer the specification words. *)
Theorem getDesiredArchiveState_normalizes {R} (this : Archive R) (w : World R) :
  exists d,
    getDesiredArchiveState this w = (Return d, w)
    /\ d = js_of_desired (normalize (raw_archived this))
    /\ (raw_archived this = VUndefined -> d = VNull)
    /\ (forall b, raw_archived this = VBool b -> d = VBool b)
    /\ (raw_archived this = VStr "true" -> d = VBool true)
    /\ (raw_archived this <> VUndefined ->
        (forall b, raw_archived this <> VBool b) ->
        raw_archived this <> VStr "true" ->
        d = VBool false).
Proof.
  exists (js_of_desired (normalize (raw_archived this))).
  split; [apply getDesiredArchiveState_run|]. split; [reflexivity|].
  repeat split.
  - intros ->. reflexivity.
  - intros b ->. destruct b; reflexivity.
  - intros ->. reflexivity.
  - intros Hu Hb Hs.
    destruct (raw_archived this) as [| |b| | |s| |]; try reflexivity.
    + now elim Hu.
    + now elim (Hb b).
    + simpl. destruct (String.eqb_spec s "true") as [->|_]; [now elim Hs|reflexivity].
Qed.

Lemma getDesiredArchiveState_normalizes_witness :
  getDesiredArchiveState (Double.plugin false (VObj [("archived", VStr "TRUE")]))
    (Double.start None)
  = (Return (VBool false), Double.start None).
Proof.
  destruct (getDesiredArchiveState_normalizes
              (Double.plugin false (VObj [("archived", VStr "TRUE")]))
              (Double.start None)) as (d & Hrun & _ & _ & _ & _ & Hother).
  rewrite Hrun. rewrite Hother; [reflexivity| | |]; simpl.
  - discriminate.
  - intros b; discriminate.
  - discriminate.
Defined.

Example normalize_false_string :
  getDesiredArchiveState (Double.plugin false (VObj [("archived", VStr "false")]))
    (Double.start None)
  = (Return (VBool false), Double.start None).
Proof. reflexivity. Qed.

Example normalize_one :
  getDesiredArchiveState (Double.plugin false (VObj [("archived", VStr "1")]))
    (Double.start None)
  = (Return (VBool false), Double.start None).
Proof. reflexivity. Qed.

Example normalize_no_settings :
  getDesiredArchiveState (Double.plugin false VUndefined) (Double.start None)
  = (Return VNull, Double.start None).
Proof. reflexivity. Qed.

(** ** The Decision Engine *)

(** C1: for every repository and every settings, the decision is Archive
    exactly when the desired state is [true] and [repository?.archived] is
    falsy, Unarchive exactly when it is [false] and the attribute is truthy,
    and None in every other case, always so when the desired state is
    [null] (Unset). *)
Theorem decision_iff {R} (this : Archive R) (arg : jsval) (w : World R) :
  exists d a u,
    getDesiredArchiveState this w = (Return d, w)
    /\ shouldArchive this arg w = (Return a, w)
    /\ shouldUnarchive this arg w = (Return u, w)
    /\ (decision a u = ActArchive <->
        d = VBool true /\ truthy (observed_archived arg w) = false)
    /\ (decision a u = ActUnarchive <->
        d = VBool false /\ truthy (observed_archived arg w) = true)
    /\ (decision a u = ActNone <->
        ~ (d = VBool true /\ truthy (observed_archived arg w) = false)
        /\ ~ (d = VBool false /\ truthy (observed_archived arg w) = true))
    /\ (d = VNull -> decision a u = ActNone).
Proof.
  do 3 eexists.
  split; [apply getDesiredArchiveState_run|].
  split; [apply shouldArchive_run|].
  split; [apply shouldUnarchive_run|].
  rewrite decision_run.
  destruct (normalize (raw_archived this)); simpl;
    destruct (truthy (observed_archived arg w)); simpl;
    repeat split; try tauto; try congruence; try discriminate;
    intros; intuition congruence.
Qed.

Lemma decision_iff_witness :
  decision (VBool true) VUndefined = ActArchive.
Proof.
  destruct (decision_iff (Double.plugin false (VObj [("archived", VBool true)]))
              VNull (Double.start None))
    as (d & a & u & Hd & Ha & Hu & Harchive & _).
  injection Hd as <-. injection Ha as <-. injection Hu as <-.
  apply Harchive. split; reflexivity.
Defined.

(** C8: [shouldArchive] and [shouldUnarchive] are never both truthy, and
    the decision is Archive or Unarchive only when the desired state is set
    (not [null]) and differs from the observed [archived] attribute, as a
    value and in truthiness. *)
Theorem decision_exclusive {R} (this : Archive R) (arg : jsval) (w : World R) :
  exists d a u,
    getDesiredArchiveState this w = (Return d, w)
    /\ shouldArchive this arg w = (Return a, w)
    /\ shouldUnarchive this arg w = (Return u, w)
    /\ truthy a && truthy u = false
    /\ (decision a u <> ActNone ->
        d <> VNull
        /\ strict_eq (observed_archived arg w) d = false
        /\ truthy (observed_archived arg w) = negb (truthy d)).
Proof.
  do 3 eexists.
  split; [apply getDesiredArchiveState_run|].
  split; [apply shouldArchive_run|].
  split; [apply shouldUnarchive_run|].
  rewrite decision_run, unarchive_answer_truthy, archive_answer_bool.
  destruct (normalize (raw_archived this)); simpl.
  - split; [reflexivity|]. intros H; now elim H.
  - split; [apply andb_false_r|].
    destruct (observed_archived arg w) as [| |[|]| | | | |]; simpl; intros H;
      try (now elim H); try (repeat split; (discriminate || reflexivity)).
    all: destruct (_ =? _)%Z eqn:E || destruct (_ =? _)%string eqn:E; simpl in *;
      try (now elim H); repeat split; (discriminate || reflexivity).
  - split; [destruct (truthy (observed_archived arg w)); reflexivity|].
    destruct (observed_archived arg w) as [| |[|]| | | | |]; simpl; intros H;
      try (now elim H); try (repeat split; (discriminate || reflexivity)).
    all: destruct (_ =? _)%Z eqn:E || destruct (_ =? _)%string eqn:E; simpl in *;
      try (now elim H); repeat split; (discriminate || reflexivity).
Qed.

Lemma decision_exclusive_witness :
  VBool false <> VNull
  /\ strict_eq (VBool true) (VBool false) = false
  /\ truthy (VBool true) = negb (truthy (VBool false)).
Proof.
  destruct (decision_exclusive (Double.plugin false (VObj [("archived", VBool false)]))
              (VObj [("archived", VBool true)]) (Double.start None))
    as (d & a & u & Hd & Ha & Hu & _ & Hacts).
  injection Hd as <-. injection Ha as <-. injection Hu as <-.
  apply Hacts. discriminate.
Defined.

(** ** The State Fetcher *)

(** C6, as stated, fails: when the remote [get] rejects with [null], the
    catch block throws a TypeError on reading [error.status]; [getRepo] does
    not propagate the rejected value. *)
Lemma rethrows_every_other_failure_fails :
  ~ rethrows_every_other_failure
      {| nop := false;
         github := {| repos_get := fun _ r => (Throw VNull, r);
                      repos_update := Double.update;
                      repos_update_endpoint := Double.describe |};
         repo := Double.test_repo; settings := VObj [] |}
      (Double.start None).
Proof.
  intros H. specialize (H VNull None eq_refl).
  vm_compute in H. discriminate H.
Qed.

(** C6, amended: when the remote [get] fails with an error value that is
    neither [null] nor [undefined], [getRepo] returns [null] exactly when
    [error.status === 404] and otherwise throws that same value; either way
    [get] was called once, and the world is as that one call left it. *)
Theorem getRepo_not_found_or_rethrow {R} (this : Archive R) (w : World R)
    (error : jsval) (r' : R) :
  repos_get (github this) (get_params this) (remote w) = (Throw error, r') ->
  is_nullish error = false ->
  getRepo this w
  = (if strict_eq (opt_chain error "status") (VNum 404)
     then Return VNull else Throw error,
     {| repository := repository w; remote := r';
        trace := trace w ++ [ReposGet (get_params this)] |}).
Proof. intros Hget Hn. apply getRepo_failed; assumption. Qed.

Lemma getRepo_not_found_or_rethrow_witness :
  getRepo (Double.plugin false (VObj [])) (Double.start None)
  = (Return VNull,
     {| repository := VUndefined; remote := None;
        trace := [ReposGet (get_params (Double.plugin false (VObj [])))] |}).
Proof.
  apply (getRepo_not_found_or_rethrow (Double.plugin false (VObj []))
           (Double.start None) Double.not_found None); reflexivity.
Defined.

Example getRepo_rethrows_500 :
  fst (getRepo {| nop := false; github := Double.broken;
                  repo := Double.test_repo; settings := VObj [] |}
         (Double.start None))
  = Throw Double.server_error.
Proof. reflexivity. Qed.

Example getRepo_returns_data :
  fst (getRepo (Double.plugin false (VObj []))
         (Double.start (Some [("archived", VBool false)])))
  = Return (VObj [("archived", VBool false)]).
Proof. reflexivity. Qed.

(** ** The Reconciler *)

(** C5: [sync] never returns more than one entry.  It returns the empty list,
    after a warning and without calling [update], when the fetch fails with
    status 404, and the empty list when the fetched repository complies with
    the desired state; it returns one entry when it does not comply and the
    preview is built (preview mode) or the update succeeds (apply mode).  A
    response whose data is falsy is treated as the absent repository. *)
Theorem sync_zero_or_one {R} (this : Archive R) (w : World R) :
  (forall rs w', sync this w = (Return rs, w') -> (length rs <= 1)%nat)
  /\ (forall error r',
        repos_get (github this) (get_params this) (remote w) = (Throw error, r') ->
        strict_eq (opt_chain error "status") (VNum 404) = true ->
        sync this w
        = (Return [],
           {| repository := VNull; remote := r';
              trace := trace w ++ [ReposGet (get_params this);
                                   not_found_message this] |})
        /\ updates_in (trace (snd (sync this w))) = updates_in (trace w))
  /\ (forall response data r',
        repos_get (github this) (get_params this) (remote w) = (Return response, r') ->
        get_prop response "data" = Return data ->
        truthy data = false ->
        sync this w
        = (Return [],
           {| repository := data; remote := r';
              trace := trace w ++ [ReposGet (get_params this);
                                   not_found_message this] |}))
  /\ (forall response data r',
        repos_get (github this) (get_params this) (remote w) = (Return response, r') ->
        get_prop response "data" = Return data ->
        truthy data = true ->
        (compliant (desired_state this) (opt_chain data "archived") = true ->
         sync this w
         = (Return [],
            {| repository := data; remote := r';
               trace := trace w ++ [ReposGet (get_params this);
                                    no_change_message this] |}))
        /\ (compliant (desired_state this) (opt_chain data "archived") = false ->
            (forall ep,
               nop this = true ->
               repos_update_endpoint (github this) (settings this) = Return ep ->
               exists x w', sync this w = (Return [x], w')
                 /\ x = Artifact (preview_of this (desired_state this) ep)
                 /\ updates_in (trace w') = updates_in (trace w))
            /\ (forall response' data' r'',
                  nop this = false ->
                  repos_update (github this)
                    (update_params this (desired_state this)) r'
                  = (Return response', r'') ->
                  get_prop response' "data" = Return data' ->
                  exists x w', sync this w = (Return [x], w')
                    /\ updates_in (trace w')
                       = (updates_in (trace w)
                          ++ [update_params this (desired_state this)])%list))).
Proof.
  split; [|split; [|split]].
  - intros rs w'. rewrite sync_run.
    destruct (getRepo this w) as [[data|e] w1]; [|discriminate].
    cbv zeta. destruct (truthy data).
    + destruct (decision _ _).
      * intros H; injection H as <- _. simpl; lia.
      * destruct (updateRepoArchiveStatus _ _ _) as [[x|e] w3]; [|discriminate].
        intros H; injection H as <- _. simpl; lia.
      * destruct (updateRepoArchiveStatus _ _ _) as [[x|e] w3]; [|discriminate].
        intros H; injection H as <- _. simpl; lia.
    + intros H; injection H as <- _. simpl; lia.
  - intros error r' Hget H404.
    rewrite (sync_not_found this w error r' Hget H404).
    unfold logged, fetched; simpl. rewrite <- app_assoc. split; [reflexivity|].
    rewrite updates_in_app. simpl. apply app_nil_r.
  - intros response data r' Hget Hdata Ht.
    rewrite (sync_no_data this w response data r' Hget Hdata Ht).
    unfold logged, fetched; simpl. rewrite <- app_assoc. reflexivity.
  - intros response data r' Hget Hdata Ht. split.
    + intros Hc. rewrite (sync_skips this w response data r' Hget Hdata Ht Hc).
      unfold logged, fetched; simpl. rewrite <- app_assoc. reflexivity.
    + intros Hc. rewrite (sync_acts this w response data r' Hget Hdata Ht Hc).
      split.
      * intros ep Hnop Hep. rewrite (update_preview this _ ep _ Hnop Hep).
        do 2 eexists. split; [reflexivity|]. split; [reflexivity|].
        unfold logged, fetched; simpl. rewrite !updates_in_app. simpl.
        rewrite !app_nil_r. reflexivity.
      * intros response' data' r'' Hnop Hup Hdata'.
        rewrite (update_apply this (desired_state this) response' data'
                   (fetched this w r' data) r'' Hnop Hup Hdata').
        do 2 eexists. split; [reflexivity|].
        unfold applied, fetched; simpl. rewrite !updates_in_app. simpl.
        rewrite app_nil_r. reflexivity.
Qed.

Lemma sync_zero_or_one_witness :
  (length (@nil entry) <= 1)%nat
  /\ fst (sync (Double.plugin false (VObj [("archived", VBool true)]))
            (Double.start None)) = Return []
  /\ fst (sync (Double.plugin false (VObj [("archived", VBool true)]))
            (Double.start (Some [("archived", VBool true)]))) = Return []
  /\ (exists x w',
        sync (Double.plugin true (VObj [("archived", VBool true)]))
          (Double.start (Some [("archived", VBool false)])) = (Return [x], w'))
  /\ (exists x w',
        sync (Double.plugin false (VObj [("archived", VBool true)]))
          (Double.start (Some [("archived", VBool false)])) = (Return [x], w')).
Proof.
  split; [|split; [|split; [|split]]].
  - destruct (sync_zero_or_one (Double.plugin false (VObj [("archived", VBool true)]))
                (Double.start None)) as [Hlen _].
    apply (Hlen [] (snd (sync (Double.plugin false (VObj [("archived", VBool true)]))
                           (Double.start None)))).
    reflexivity.
  - destruct (sync_zero_or_one (Double.plugin false (VObj [("archived", VBool true)]))
                (Double.start None)) as (_ & Habsent & _).
    destruct (Habsent Double.not_found None) as [Hrun _];
      [reflexivity|reflexivity|].
    rewrite Hrun. reflexivity.
  - destruct (sync_zero_or_one (Double.plugin false (VObj [("archived", VBool true)]))
                (Double.start (Some [("archived", VBool true)]))) as (_ & _ & _ & Hfound).
    destruct (Hfound _ _ _ eq_refl eq_refl eq_refl) as [Hskip _].
    rewrite Hskip; reflexivity.
  - destruct (sync_zero_or_one (Double.plugin true (VObj [("archived", VBool true)]))
                (Double.start (Some [("archived", VBool false)]))) as (_ & _ & _ & Hfound).
    destruct (Hfound _ _ _ eq_refl eq_refl eq_refl) as [_ Hact].
    destruct (Hact eq_refl) as [Hpreview _].
    destruct (Hpreview _ eq_refl eq_refl) as (x & w' & Hrun & _).
    exists x, w'. exact Hrun.
  - destruct (sync_zero_or_one (Double.plugin false (VObj [("archived", VBool true)]))
                (Double.start (Some [("archived", VBool false)]))) as (_ & _ & _ & Hfound).
    destruct (Hfound _ _ _ eq_refl eq_refl eq_refl) as [_ Hact].
    destruct (Hact eq_refl) as [_ Happly].
    destruct (Happly _ _ _ eq_refl eq_refl eq_refl) as (x & w' & Hrun & _).
    exists x, w'. exact Hrun.
Defined.

(** ** The Action Executor *)

(** C3, as stated, fails: in apply mode [updateRepoArchiveStatus] ends
    without a [return], so what it resolves to is [undefined], which is
    neither the response, nor its data, nor a truthy marker. *)
Lemma apply_returns_response_fails :
  ~ apply_returns_response (Double.plugin false (VObj [("archived", VBool true)]))
      (VBool true) (Double.start (Some [("archived", VBool false)])).
Proof.
  intros H.
  destruct (H _ _ eq_refl eq_refl) as (v & w' & Hrun & Hv).
  vm_compute in Hrun. injection Hrun as <- _.
  destruct Hv as [Hv | [Hv | Hv]]; discriminate Hv.
Qed.

(** C3, amended: in apply mode, for Archive ([a = true]) and Unarchive
    ([a = false]), [updateRepoArchiveStatus] calls [update] with
    [{ owner, repo, archived: a }], then logs at debug level the response
    data with the repository name and the action, and resolves to
    [undefined]; the one entry [sync] returns in apply mode is that
    [undefined]. *)
Theorem apply_mode_update {R} (this : Archive R) (a : bool) (w : World R)
    (response data : jsval) (r' : R) :
  nop this = false ->
  repos_update (github this) (update_params this (VBool a)) (remote w)
  = (Return response, r') ->
  get_prop response "data" = Return data ->
  let w' :=
    {| repository := repository w; remote := r';
       trace := trace w ++
         [ReposUpdate (VObj [("owner", VStr (Repo.owner (repo this)));
                             ("repo", VStr (Repo.repo (repo this)));
                             ("archived", VBool a)]);
          LogDebug [VObj [("result", data)];
                    VStr ("Repo " ++ Repo.owner (repo this) ++ "/"
                          ++ Repo.repo (repo this)
                          ++ (if a then " archived" else " unarchived"))]] |} in
  updateRepoArchiveStatus this (VBool a) w = (Return (Plain VUndefined), w')
  /\ (forall w0 response0 sa su,
        repos_get (github this) (get_params this) (remote w0)
        = (Return response0, remote w) ->
        get_prop response0 "data" = Return (repository w) ->
        truthy (repository w) = true ->
        trace w = (trace w0 ++ [ReposGet (get_params this)])%list ->
        shouldArchive this VUndefined w = (Return sa, w) ->
        shouldUnarchive this VUndefined w = (Return su, w) ->
        decision sa su = (if a then ActArchive else ActUnarchive) ->
        sync this w0 = (Return [Plain VUndefined], w')).
Proof.
  intros Hnop Hup Hdata w'.
  assert (Hrun : updateRepoArchiveStatus this (VBool a) w
                 = (Return (Plain VUndefined), w')).
  { rewrite (update_apply this (VBool a) response data w r' Hnop Hup Hdata).
    unfold applied, w'. rewrite done_message_text. reflexivity. }
  split; [exact Hrun|].
  intros w0 response0 sa su Hget Hdata0 Ht Htrace Hsa Hsu Hdec.
  rewrite shouldArchive_run in Hsa. rewrite shouldUnarchive_run in Hsu.
  injection Hsa as <-. injection Hsu as <-.
  unfold observed_archived in Hdec. cbn [default_param] in Hdec.
  rewrite decision_compliant in Hdec.
  destruct (compliant (desired_state this) (opt_chain (repository w) "archived"))
    eqn:Hc; [destruct a; discriminate Hdec|].
  assert (Hd : desired_state this = VBool a).
  { rewrite (acting_desired_bool this _ Hc).
    destruct (truthy (desired_state this)), a; try reflexivity; discriminate Hdec. }
  rewrite (sync_acts this w0 response0 (repository w) (remote w) Hget Hdata0 Ht Hc).
  assert (Hw : fetched this w0 (remote w) (repository w) = w).
  { unfold fetched. rewrite <- Htrace. destruct w; reflexivity. }
  rewrite Hw, Hd, Hrun. reflexivity.
Qed.

Lemma apply_mode_update_witness :
  sync (Double.plugin false (VObj [("archived", VBool false)]))
    (Double.start (Some [("archived", VBool true)]))
  = (Return [Plain VUndefined],
     {| repository := VObj [("archived", VBool true)];
        remote := Some [("archived", VBool false)];
        trace :=
          [ReposGet (VObj [("owner", VStr "test-owner"); ("repo", VStr "test-repo")]);
           ReposUpdate (VObj [("owner", VStr "test-owner"); ("repo", VStr "test-repo");
                              ("archived", VBool false)]);
           LogDebug [VObj [("result", VObj [("archived", VBool false)])];
                     VStr "Repo test-owner/test-repo unarchived"]] |}).
Proof.
  destruct (apply_mode_update
              (Double.plugin false (VObj [("archived", VBool false)])) false
              {| repository := VObj [("archived", VBool true)];
                 remote := Some [("archived", VBool true)];
                 trace := [ReposGet (VObj [("owner", VStr "test-owner");
                                           ("repo", VStr "test-repo")])] |}
              (VObj [("data", VObj [("archived", VBool false)])])
              (VObj [("archived", VBool false)])
              (Some [("archived", VBool false)])
              eq_refl eq_refl eq_refl) as [_ Hsync].
  apply (Hsync (Double.start (Some [("archived", VBool true)]))
           (VObj [("data", VObj [("archived", VBool true)])])
           (VBool false) (VBool true)); reflexivity.
Defined.

(** ** Preview and apply *)

(** C2, as stated, fails: the preview's endpoint is the descriptor of
    [this.settings], here [{ archived: true }], whereas apply mode calls
    [update] with [{ owner, repo, archived: true }]. *)
Lemma preview_from_apply_params_fails :
  ~ preview_from_apply_params
      (Double.plugin true (VObj [("archived", VBool true)]))
      (Double.start (Some [("archived", VBool false)])).
Proof.
  intros H.
  destruct (H _ _ (update_params (Double.plugin true (VObj [("archived", VBool true)]))
                     (VBool true))
              eq_refl (or_introl eq_refl)) as [Hep _].
  vm_compute in Hep. discriminate Hep.
Qed.

(** C2, amended: for the same world and settings, when preview mode
    returns an artifact, apply mode sends exactly one [update], with a
    boolean [archived], and the artifact's [modifications.archived] is
    ['archive'] when that boolean is [true] and ['unarchive'] when it is
    [false]; the artifact's endpoint is what the endpoint accessor gives for
    [this.settings], and preview mode itself sends no [update]. *)
Theorem preview_matches_apply_value {R} (this : Archive R) (w w1 : World R)
    (c : NopCommand) :
  sync (with_nop true this) w = (Return [Artifact c], w1) ->
  exists a : bool,
    updates_in (trace (snd (sync (with_nop false this) w)))
    = (updates_in (trace w) ++ [update_params this (VBool a)])%list
    /\ modifications (change c)
       = [("archived", VStr (if a then "archive" else "unarchive"))]
    /\ repos_update_endpoint (github this) (settings this) = Return (endpoint c)
    /\ updates_in (trace w1) = updates_in (trace w).
Proof.
  intros Hp.
  destruct (sync_one_inv _ _ _ _ Hp) as (data & w0 & Hrepo & Ht & Hc & Hup).
  change (desired_state (with_nop true this)) with (desired_state this) in *.
  pose proof (acting_desired_bool this _ Hc) as Hb.
  exists (truthy (desired_state this)).
  destruct (update_preview_inv (with_nop true this) _ _ _ _ eq_refl Hup)
    as (ep & Hep & Hx & Hw1).
  injection Hx as ->. cbn in Hep.
  pose proof (getRepo_world (with_nop true this) w) as Hw0.
  rewrite Hrepo in Hw0. cbn [snd] in Hw0.
  assert (Htrace : updates_in (trace w0) = updates_in (trace w)).
  { rewrite Hw0. unfold fetched; simpl. rewrite updates_in_app. apply app_nil_r. }
  split; [|split; [|split]].
  - rewrite sync_run.
    change (getRepo (with_nop false this) w) with (getRepo (with_nop true this) w).
    rewrite Hrepo. cbv zeta. rewrite Ht, decision_compliant.
    change (desired_state (with_nop false this)) with (desired_state this).
    rewrite Hc.
    assert (Hcalls : forall b,
      updates_in (trace (snd (updateRepoArchiveStatus (with_nop false this) (VBool b)
                                {| repository := data; remote := remote w0;
                                   trace := trace w0 |})))
      = (updates_in (trace w) ++ [update_params this (VBool b)])%list).
    { intros b. rewrite update_apply_calls by reflexivity. simpl.
      rewrite Htrace. reflexivity. }
    destruct (truthy (desired_state this));
      [specialize (Hcalls true)|specialize (Hcalls false)];
      destruct (updateRepoArchiveStatus (with_nop false this) _ _) as [[y|e] w3];
      exact Hcalls.
  - simpl. unfold action_name. rewrite Hb. reflexivity.
  - exact Hep.
  - rewrite Hw1. unfold logged; simpl. rewrite updates_in_app, Htrace.
    apply app_nil_r.
Qed.

Lemma preview_matches_apply_value_witness :
  exists a : bool,
    updates_in (trace (snd (sync
      (with_nop false (Double.plugin true (VObj [("archived", VStr "true")])))
      (Double.start (Some [("archived", VBool false)])))))
    = [update_params (Double.plugin true (VObj [("archived", VStr "true")])) (VBool a)]
    /\ a = true.
Proof.
  destruct (preview_matches_apply_value
              (Double.plugin true (VObj [("archived", VStr "true")]))
              (Double.start (Some [("archived", VBool false)]))
              (snd (sync (Double.plugin true (VObj [("archived", VStr "true")]))
                      (Double.start (Some [("archived", VBool false)]))))
              (preview_of (Double.plugin true (VObj [("archived", VStr "true")]))
                 (VBool true)
                 (VObj [("method", VStr "PATCH"); ("url", VStr "/repos/{owner}/{repo}");
                        ("body", VObj [("archived", VStr "true")])]))
              eq_refl) as (a & Hsent & Hmod & _).
  exists a. split; [exact Hsent|].
  destruct a; [reflexivity|discriminate Hmod].
Defined.

(** ** A [null] setting *)

(** C9: with [settings.archived] [null], [getDesiredArchiveState] returns
    [false], not [null]; so [sync] on a repository whose [archived] is truthy
    previews an unarchive (preview mode: the artifact, no [update]) or
    performs it (apply mode: [update] runs with [archived: false], the remote
    side is what that call left, the debug entry says unarchived), where the
    same call with the setting [undefined] changes nothing. *)
Theorem null_setting_unarchives {R} (this : Archive R) (w : World R)
    (response data : jsval) (r' : R) :
  raw_archived this = VNull ->
  repos_get (github this) (get_params this) (remote w) = (Return response, r') ->
  get_prop response "data" = Return data ->
  truthy data = true ->
  truthy (opt_chain data "archived") = true ->
  getDesiredArchiveState this w = (Return (VBool false), w)
  /\ (forall ep,
        nop this = true ->
        repos_update_endpoint (github this) (settings this) = Return ep ->
        sync this w
        = (Return [Artifact
                     {| source := "Archive"; resource := repo this; endpoint := ep;
                        change := {| msg := "Change found"; additions := [];
                                     modifications := [("archived", VStr "unarchive")];
                                     deletions := [] |};
                        level := "INFO" |}],
           {| repository := data; remote := r';
              trace := trace w ++ [ReposGet (get_params this);
                                   ReposUpdateEndpoint (settings this)] |}))
  /\ (forall response' data' r'',
        nop this = false ->
        repos_update (github this) (update_params this (VBool false)) r'
        = (Return response', r'') ->
        get_prop response' "data" = Return data' ->
        sync this w
        = (Return [Plain VUndefined],
           {| repository := data; remote := r'';
              trace := trace w ++
                [ReposGet (get_params this);
                 ReposUpdate (VObj [("owner", VStr (Repo.owner (repo this)));
                                    ("repo", VStr (Repo.repo (repo this)));
                                    ("archived", VBool false)]);
                 LogDebug [VObj [("result", data')];
                           VStr ("Repo " ++ Repo.owner (repo this) ++ "/"
                                 ++ Repo.repo (repo this) ++ " unarchived")]] |}))
  /\ (forall unset : Archive R,
        raw_archived unset = VUndefined ->
        github unset = github this ->
        repo unset = repo this ->
        sync unset w
        = (Return [],
           {| repository := data; remote := r';
              trace := trace w ++ [ReposGet (get_params this);
                                   no_change_message this] |})).
Proof.
  intros Hnull Hget Hdata Ht Harch.
  assert (Hd : desired_state this = VBool false).
  { unfold desired_state. rewrite Hnull. reflexivity. }
  assert (Hc : compliant (desired_state this) (opt_chain data "archived") = false).
  { rewrite Hd. simpl. rewrite Harch. reflexivity. }
  split; [|split; [|split]].
  - rewrite getDesiredArchiveState_run. fold (desired_state this).
    rewrite Hd. reflexivity.
  - intros ep Hnop Hep.
    rewrite (sync_acts this w response data r' Hget Hdata Ht Hc), Hd.
    rewrite (update_preview this (VBool false) ep _ Hnop Hep).
    unfold logged, fetched; simpl. rewrite <- app_assoc. reflexivity.
  - intros response' data' r'' Hnop Hup Hdata'.
    rewrite (sync_acts this w response data r' Hget Hdata Ht Hc), Hd.
    rewrite (update_apply this (VBool false) response' data'
               (fetched this w r' data) r'' Hnop Hup Hdata').
    unfold applied, fetched. cbn [repository remote trace].
    rewrite done_message_text, <- app_assoc. reflexivity.
  - intros unset Hunset Hgh Hrepo.
    assert (Hparams : get_params unset = get_params this).
    { unfold get_params. rewrite Hrepo. reflexivity. }
    assert (Hmsg : no_change_message unset = no_change_message this).
    { unfold no_change_message, full_name. rewrite Hrepo. reflexivity. }
    assert (Hget' : repos_get (github unset) (get_params unset) (remote w)
                    = (Return response, r')).
    { rewrite Hgh, Hparams. exact Hget. }
    assert (Hc' : compliant (desired_state unset) (opt_chain data "archived") = true).
    { unfold desired_state. rewrite Hunset. reflexivity. }
    rewrite (sync_skips unset w response data r' Hget' Hdata Ht Hc').
    unfold logged, fetched; simpl. rewrite <- app_assoc, Hparams, Hmsg. reflexivity.
Qed.

Lemma null_setting_unarchives_witness :
  sync (Double.plugin false (VObj [("archived", VNull)]))
    (Double.start (Some [("archived", VBool true)]))
  = (Return [Plain VUndefined],
     {| repository := VObj [("archived", VBool true)];
        remote := Some [("archived", VBool false)];
        trace :=
          [ReposGet (VObj [("owner", VStr "test-owner"); ("repo", VStr "test-repo")]);
           ReposUpdate (VObj [("owner", VStr "test-owner"); ("repo", VStr "test-repo");
                              ("archived", VBool false)]);
           LogDebug [VObj [("result", VObj [("archived", VBool false)])];
                     VStr "Repo test-owner/test-repo unarchived"]] |}).
Proof.
  destruct (null_setting_unarchives
              (Double.plugin false (VObj [("archived", VNull)]))
              (Double.start (Some [("archived", VBool true)]))
              (VObj [("data", VObj [("archived", VBool true)])])
              (VObj [("archived", VBool true)])
              (Some [("archived", VBool true)])
              eq_refl eq_refl eq_refl eq_refl eq_refl) as (_ & _ & Happly & _).
  apply (Happly (VObj [("data", VObj [("archived", VBool false)])])
           (VObj [("archived", VBool false)])
           (Some [("archived", VBool false)])
           eq_refl eq_refl eq_refl).
Defined.

(** ** An absent repository *)

(** C10: the decision methods do not guard against an absent repository.
    When the desired state is [true] and the repository they look at is
    [null], or was not passed while [this.repository] is [null] or
    [undefined], [shouldArchive] returns [true] and [shouldUnarchive] returns
    [undefined], not [false].  So after a fetch that failed with status 404,
    [getState] reports [shouldArchive: true]; only the early return of [sync]
    keeps it from acting: it returns the empty list and sends no [update]. *)
Theorem decisions_unguarded {R} (this : Archive R) (w : World R) :
  getDesiredArchiveState this w = (Return (VBool true), w) ->
  shouldArchive this VNull w = (Return (VBool true), w)
  /\ shouldUnarchive this VNull w = (Return VUndefined, w)
  /\ (is_nullish (repository w) = true ->
      shouldArchive this VUndefined w = (Return (VBool true), w)
      /\ shouldUnarchive this VUndefined w = (Return VUndefined, w))
  /\ (forall error r',
        repos_get (github this) (get_params this) (remote w) = (Throw error, r') ->
        strict_eq (opt_chain error "status") (VNum 404) = true ->
        getState this w
        = (Return (VObj [("isArchived", VUndefined);
                         ("shouldArchive", VBool true);
                         ("shouldUnarchive", VUndefined)]),
           {| repository := VNull; remote := r';
              trace := trace w ++ [ReposGet (get_params this)] |})
        /\ fst (sync this w) = Return []
        /\ updates_in (trace (snd (sync this w))) = updates_in (trace w)).
Proof.
  intros Hd. rewrite getDesiredArchiveState_run in Hd.
  assert (Hn : normalize (raw_archived this) = True_).
  { destruct (normalize (raw_archived this)); simpl in Hd; try discriminate Hd.
    reflexivity. }
  split; [|split; [|split]].
  - rewrite shouldArchive_run, Hn. reflexivity.
  - rewrite shouldUnarchive_run, Hn. reflexivity.
  - intros Hnull. rewrite shouldArchive_run, shouldUnarchive_run, Hn.
    unfold observed_archived. simpl.
    destruct (repository w); try discriminate Hnull; split; reflexivity.
  - intros error r' Hget H404.
    pose proof (status_404_not_nullish error H404) as Hne. split; [|split].
    + unfold getState. unfold bind at 1.
      rewrite (getRepo_failed this w error r' Hget Hne), H404.
      cbv beta iota zeta delta [bind write_repository isArchived read_repository ret].
      rewrite shouldArchive_run, shouldUnarchive_run, Hn. reflexivity.
    + rewrite (sync_not_found this w error r' Hget H404). reflexivity.
    + rewrite (sync_not_found this w error r' Hget H404).
      unfold logged, fetched; simpl. rewrite !updates_in_app. simpl.
      rewrite !app_nil_r. reflexivity.
Qed.

Lemma decisions_unguarded_witness :
  getState (Double.plugin false (VObj [("archived", VBool true)])) (Double.start None)
  = (Return (VObj [("isArchived", VUndefined);
                   ("shouldArchive", VBool true);
                   ("shouldUnarchive", VUndefined)]),
     {| repository := VNull; remote := None;
        trace := [ReposGet (get_params
                    (Double.plugin false (VObj [("archived", VBool true)])))] |}).
Proof.
  destruct (decisions_unguarded
              (Double.plugin false (VObj [("archived", VBool true)]))
              (Double.start None) eq_refl) as (_ & _ & _ & Hstate).
  destruct (Hstate Double.not_found None eq_refl eq_refl) as [Hrun _].
  exact Hrun.
Defined.

(** ** Idempotence *)

(** C7: after a [sync] that returned one entry, a second [sync] with the
    same settings whose fetch observes an [archived] attribute equal to the
    desired state selects None and returns the empty list, with only the
    [get] call and the no-change debug entry added.  In apply mode that is
    what the second fetch observes as soon as the [update] this run sent
    took effect: a [get] on the remote side that [update] left shows the
    repository with the desired state that was sent. *)
Theorem sync_idempotent {R} (this : Archive R) (w w1 : World R) (x : entry) :
  sync this w = (Return [x], w1) ->
  (forall response data r'',
      repos_get (github this) (get_params this) (remote w1) = (Return response, r'') ->
      get_prop response "data" = Return data ->
      truthy data = true ->
      opt_chain data "archived" = desired_state this ->
      let w2 := {| repository := data; remote := r'';
                   trace := trace w1 ++ [ReposGet (get_params this);
                                         no_change_message this] |} in
      sync this w1 = (Return [], w2)
      /\ exists sa su,
           shouldArchive this VUndefined w2 = (Return sa, w2)
           /\ shouldUnarchive this VUndefined w2 = (Return su, w2)
           /\ decision sa su = ActNone)
  /\ (nop this = false ->
      (forall response r',
          repos_update (github this) (update_params this (desired_state this))
            (snd (repos_get (github this) (get_params this) (remote w)))
          = (Return response, r') ->
          exists response' data r'',
            repos_get (github this) (get_params this) r' = (Return response', r'')
            /\ get_prop response' "data" = Return data
            /\ truthy data = true
            /\ opt_chain data "archived" = desired_state this) ->
      exists data r'',
        opt_chain data "archived" = desired_state this
        /\ let w2 := {| repository := data; remote := r'';
                        trace := trace w1 ++ [ReposGet (get_params this);
                                              no_change_message this] |} in
           sync this w1 = (Return [], w2)
           /\ exists sa su,
                shouldArchive this VUndefined w2 = (Return sa, w2)
                /\ shouldUnarchive this VUndefined w2 = (Return su, w2)
                /\ decision sa su = ActNone).
Proof.
  intros Hfirst.
  assert (Hdirect : forall response data r'',
      repos_get (github this) (get_params this) (remote w1) = (Return response, r'') ->
      get_prop response "data" = Return data ->
      truthy data = true ->
      opt_chain data "archived" = desired_state this ->
      let w2 := {| repository := data; remote := r'';
                   trace := trace w1 ++ [ReposGet (get_params this);
                                         no_change_message this] |} in
      sync this w1 = (Return [], w2)
      /\ exists sa su,
           shouldArchive this VUndefined w2 = (Return sa, w2)
           /\ shouldUnarchive this VUndefined w2 = (Return su, w2)
           /\ decision sa su = ActNone).
  { intros response data r'' Hget Hdata Ht Hobs w2.
    assert (Hc : compliant (desired_state this) (opt_chain data "archived") = true).
    { rewrite Hobs. apply compliant_same. }
    split.
    - rewrite (sync_skips this w1 response data r'' Hget Hdata Ht Hc).
      unfold w2, logged, fetched; simpl. rewrite <- app_assoc. reflexivity.
    - do 2 eexists.
      split; [apply shouldArchive_run|]. split; [apply shouldUnarchive_run|].
      unfold observed_archived, w2. cbn [default_param repository].
      rewrite decision_compliant, Hc. reflexivity. }
  split; [exact Hdirect|].
  intros Hnop Heffect.
  destruct (sync_one_inv this w w1 x Hfirst) as (data0 & w0 & Hrepo & _ & Hc & Hup).
  pose proof (getRepo_world this w) as Hw0. rewrite Hrepo in Hw0. cbn [snd] in Hw0.
  destruct (update_apply_inv this _ _ _ _ Hnop Hup)
    as (response & data' & r' & Hsent & _ & _ & Hw1).
  cbn [remote] in Hsent. rewrite Hw0 in Hsent. cbn [remote fetched] in Hsent.
  destruct (Heffect _ _ Hsent) as (response' & data & r'' & Hget & Hdata & Ht & Hobs).
  assert (Hget1 : repos_get (github this) (get_params this) (remote w1)
                  = (Return response', r'')).
  { rewrite Hw1. exact Hget. }
  exists data, r''. split; [exact Hobs|].
  exact (Hdirect response' data r'' Hget1 Hdata Ht Hobs).
Qed.

Lemma sync_idempotent_witness :
  exists w2,
    sync (Double.plugin false (VObj [("archived", VStr "true")]))
      (snd (sync (Double.plugin false (VObj [("archived", VStr "true")]))
              (Double.start (Some [("archived", VBool false)]))))
    = (Return [], w2).
Proof.
  destruct (sync_idempotent
              (Double.plugin false (VObj [("archived", VStr "true")]))
              (Double.start (Some [("archived", VBool false)]))
              (snd (sync (Double.plugin false (VObj [("archived", VStr "true")]))
                      (Double.start (Some [("archived", VBool false)]))))
              (Plain VUndefined) eq_refl) as [Hdirect Hlaw].
  destruct (Hlaw eq_refl
              (fun response r' =>
                 double_get_after_update false (VObj [("archived", VStr "true")])
                   (VBool true) _ r' response))
    as (data & r'' & _ & Hrun & _).
  destruct (Hdirect (VObj [("data", VObj [("archived", VBool true)])])
              (VObj [("archived", VBool true)]) (Some [("archived", VBool true)])
              eq_refl eq_refl eq_refl eq_refl) as [Hrun' _].
  eexists. exact Hrun'.
Defined.

(** * Further behaviour of the methods *)

(** ** Equations for the fetch, the report and the executor *)

Section MoreRuns.

Context {R : Type}.
Variable this : Archive R.

(** [getRepo] in full: its completion is read off the completion of the one
    [get] call, and the world gains that call and nothing else. *)
Lemma getRepo_run (w : World R) :
  getRepo this w
  = (fetch_outcome (fst (repos_get (github this) (get_params this) (remote w))),
     fetched this w (snd (repos_get (github this) (get_params this) (remote w)))
       (repository w)).
Proof.
  unfold getRepo, fetch_outcome, caught. unfold_monad. simpl.
  destruct (repos_get (github this) (get_params this) (remote w)) as [[response|e] r'];
    simpl.
  - destruct (get_prop response "data") as [d|e]; simpl; [reflexivity|].
    destruct (get_prop e "status") as [s|e']; simpl;
      [destruct (strict_eq s (VNum 404))|]; reflexivity.
  - destruct (get_prop e "status") as [s|e']; simpl;
      [destruct (strict_eq s (VNum 404))|]; reflexivity.
Qed.

(** [getState], step by step after the fetch. *)
Lemma getState_run (w : World R) :
  getState this w
  = match getRepo this w with
    | (Throw e, w1) => (Throw e, w1)
    | (Return data, w1) =>
        (Return (VObj [("isArchived", opt_chain data "archived");
                       ("shouldArchive",
                        archive_answer (normalize (raw_archived this))
                          (opt_chain data "archived"));
                       ("shouldUnarchive",
                        unarchive_answer (normalize (raw_archived this))
                          (opt_chain data "archived"))]),
         Build_World data (remote w1) (trace w1))
    end.
Proof.
  unfold getState. unfold bind at 1.
  destruct (getRepo this w) as [[data|e] w1]; [|reflexivity].
  cbv beta iota zeta delta [bind write_repository isArchived read_repository ret].
  rewrite shouldArchive_run, shouldUnarchive_run. reflexivity.
Qed.

(** What the executor adds to the trace, in each mode. *)
Lemma update_trace (archived : jsval) (w : World R) :
  exists added,
    trace (snd (updateRepoArchiveStatus this archived w)) = (trace w ++ added)%list
    /\ if nop this then added = [ReposUpdateEndpoint (settings this)]
       else added = [ReposUpdate (update_params this archived)]
            \/ exists data,
                 added = [ReposUpdate (update_params this archived);
                          done_message this archived data].
Proof.
  unfold updateRepoArchiveStatus. destruct (nop this); unfold_monad; simpl.
  - eexists. split; [|reflexivity].
    destruct (repos_update_endpoint (github this) (settings this)); reflexivity.
  - destruct (repos_update (github this) (update_params this archived) (remote w))
      as [[response|e] r']; simpl.
    + destruct (get_prop response "data") as [data|e]; simpl.
      * eexists. split; [rewrite <- app_assoc; reflexivity|].
        right. exists data. reflexivity.
      * eexists. split; [reflexivity|]. left. reflexivity.
    + eexists. split; [reflexivity|]. left. reflexivity.
Qed.

(** The executor never assigns [this.repository]. *)
Lemma update_keeps_repository (archived : jsval) (w : World R) :
  repository (snd (updateRepoArchiveStatus this archived w)) = repository w.
Proof.
  unfold updateRepoArchiveStatus. destruct (nop this); unfold_monad; simpl.
  - destruct (repos_update_endpoint (github this) (settings this)); reflexivity.
  - destruct (repos_update (github this) (update_params this archived) (remote w))
      as [[response|e] r']; simpl; [|reflexivity].
    destruct (get_prop response "data"); reflexivity.
Qed.

(** In preview mode the executor leaves the remote side alone. *)
Lemma update_preview_remote (archived : jsval) (w : World R) :
  nop this = true ->
  remote (snd (updateRepoArchiveStatus this archived w)) = remote w.
Proof.
  intros Hnop. unfold updateRepoArchiveStatus. rewrite Hnop. unfold_monad. simpl.
  destruct (repos_update_endpoint (github this) (settings this)); reflexivity.
Qed.

(** The executor reads nothing of the world but the remote side. *)
Lemma update_same_remote (archived : jsval) (w w' : World R) :
  remote w = remote w' ->
  fst (updateRepoArchiveStatus this archived w)
  = fst (updateRepoArchiveStatus this archived w')
  /\ remote (snd (updateRepoArchiveStatus this archived w))
     = remote (snd (updateRepoArchiveStatus this archived w')).
Proof.
  intros Hr. unfold updateRepoArchiveStatus. destruct (nop this); unfold_monad; simpl.
  - destruct (repos_update_endpoint (github this) (settings this)); simpl;
      split; (reflexivity || exact Hr).
  - rewrite Hr.
    destruct (repos_update (github this) (update_params this archived) (remote w'))
      as [[response|e] r']; simpl; [|split; reflexivity].
    destruct (get_prop response "data"); simpl; split; reflexivity.
Qed.

End MoreRuns.

(** ** The fetch: one call, whatever it answers *)

(** X1: Whatever the remote [get] does, [getRepo] calls it exactly once with
    [{ owner, repo }], logs nothing, calls nothing else and does not assign
    [this.repository]; when the response is neither [null] nor [undefined]
    it returns its [data] property, [undefined] if there is none. *)
Theorem getRepo_single_call {R} (this : Archive R) (w : World R) :
  snd (getRepo this w)
  = {| repository := repository w;
       remote := snd (repos_get (github this) (get_params this) (remote w));
       trace := trace w ++ [ReposGet (VObj [("owner", VStr (Repo.owner (repo this)));
                                            ("repo", VStr (Repo.repo (repo this)))])] |}
  /\ (forall response,
        fst (repos_get (github this) (get_params this) (remote w)) = Return response ->
        is_nullish response = false ->
        fst (getRepo this w) = Return (opt_chain response "data")).
Proof.
  rewrite getRepo_run. split; [reflexivity|].
  intros response Hget Hn. cbn [fst]. rewrite Hget. unfold fetch_outcome.
  rewrite (get_prop_opt_chain _ "data" Hn). reflexivity.
Qed.

Lemma getRepo_single_call_witness :
  fst (getRepo (Stub.plugin (Stub.answering (VObj [])) false (VObj []))
         (Double.start None))
  = Return VUndefined.
Proof.
  destruct (getRepo_single_call (Stub.plugin (Stub.answering (VObj [])) false (VObj []))
              (Double.start None)) as [_ Hdata].
  apply (Hdata (VObj [])); reflexivity.
Defined.

(** X2: A response that is [null] or [undefined] makes the destructuring throw
    a TypeError inside the [try]; the catch block finds no [status] 404 on it
    and rethrows it.  A response without a truthy [data] makes [sync] warn
    that the repository was not found and return the empty list. *)
Theorem malformed_response {R} (this : Archive R) (w : World R) (response : jsval) :
  fst (repos_get (github this) (get_params this) (remote w)) = Return response ->
  (is_nullish response = true ->
   fst (getRepo this w) = Throw TypeError
   /\ fst (sync this w) = Throw TypeError
   /\ fst (getState this w) = Throw TypeError)
  /\ (is_nullish response = false ->
      truthy (opt_chain response "data") = false ->
      fst (sync this w) = Return []
      /\ trace (snd (sync this w))
         = (trace w ++ [ReposGet (get_params this); not_found_message this])%list).
Proof.
  intros Hget. split.
  - intros Hn.
    assert (Hrepo : fst (getRepo this w) = Throw TypeError).
    { rewrite getRepo_run. cbn [fst]. rewrite Hget.
      destruct response; try discriminate Hn; reflexivity. }
    split; [exact Hrepo|].
    rewrite sync_run, getState_run.
    destruct (getRepo this w) as [[data|e] w1]; cbn [fst] in *;
      [discriminate Hrepo|]. injection Hrepo as ->. split; reflexivity.
  - intros Hn Ht.
    destruct (repos_get (github this) (get_params this) (remote w)) as [o r'] eqn:Hg.
    cbn [fst] in Hget. subst o.
    rewrite (sync_no_data this w response (opt_chain response "data") r' Hg
               (get_prop_opt_chain _ "data" Hn) Ht).
    split; [reflexivity|]. unfold logged, fetched; simpl.
    rewrite <- app_assoc. reflexivity.
Qed.

Lemma malformed_response_witness :
  fst (sync (Stub.plugin (Stub.answering VNull) false (VObj [("archived", VBool true)]))
         (Double.start None)) = Throw TypeError
  /\ fst (sync (Stub.plugin (Stub.answering (VObj [])) false
                  (VObj [("archived", VBool true)]))
            (Double.start None)) = Return [].
Proof.
  split.
  - destruct (malformed_response
                (Stub.plugin (Stub.answering VNull) false (VObj [("archived", VBool true)]))
                (Double.start None) VNull eq_refl) as [Hnull _].
    destruct (Hnull eq_refl) as (_ & Hsync & _). exact Hsync.
  - destruct (malformed_response
                (Stub.plugin (Stub.answering (VObj [])) false
                   (VObj [("archived", VBool true)]))
                (Double.start None) (VObj []) eq_refl) as [_ Hnodata].
    destruct (Hnodata eq_refl eq_refl) as [Hsync _]. exact Hsync.
Defined.

(** X3: When the remote [get] rejects with [null] or [undefined], reading
    [error.status] in the catch block throws: [getRepo] throws a TypeError,
    not the rejected value. *)
Theorem getRepo_nullish_rejection {R} (this : Archive R) (w : World R) (error : jsval) :
  fst (repos_get (github this) (get_params this) (remote w)) = Throw error ->
  is_nullish error = true ->
  fst (getRepo this w) = Throw TypeError
  /\ Throw (A := jsval) TypeError <> Throw error.
Proof.
  intros Hget Hn. rewrite getRepo_run. cbn [fst]. rewrite Hget.
  destruct error; try discriminate Hn; split; (reflexivity || discriminate).
Qed.

Lemma getRepo_nullish_rejection_witness :
  fst (getRepo (Stub.plugin (Stub.rejecting VUndefined) false (VObj []))
         (Double.start None))
  = Throw TypeError.
Proof.
  apply (getRepo_nullish_rejection
           (Stub.plugin (Stub.rejecting VUndefined) false (VObj []))
           (Double.start None) VUndefined eq_refl eq_refl).
Defined.

(** ** Failures pass through the Reconciler *)

(** X4: A fetch failure other than status 404 makes [sync] and [getState] throw
    the same value after the one [get] call: [this.repository] keeps its
    earlier value, nothing is logged and [update] is not called. *)
Theorem fetch_failure_propagates {R} (this : Archive R) (w : World R)
    (error : jsval) (r' : R) :
  repos_get (github this) (get_params this) (remote w) = (Throw error, r') ->
  is_nullish error = false ->
  strict_eq (opt_chain error "status") (VNum 404) = false ->
  let w' := {| repository := repository w; remote := r';
               trace := trace w ++ [ReposGet (get_params this)] |} in
  sync this w = (Throw error, w') /\ getState this w = (Throw error, w').
Proof.
  intros Hget Hn H404 w'.
  rewrite sync_run, getState_run, (getRepo_failed this w error r' Hget Hn), H404.
  split; reflexivity.
Qed.

Lemma fetch_failure_propagates_witness :
  fst (sync {| nop := false; github := Double.broken; repo := Double.test_repo;
               settings := VObj [("archived", VBool true)] |}
         (Double.start (Some [("archived", VBool false)])))
  = Throw Double.server_error.
Proof.
  destruct (fetch_failure_propagates
              {| nop := false; github := Double.broken; repo := Double.test_repo;
                 settings := VObj [("archived", VBool true)] |}
              (Double.start (Some [("archived", VBool false)]))
              Double.server_error (Some [("archived", VBool false)])
              eq_refl eq_refl eq_refl) as [Hsync _].
  rewrite Hsync. reflexivity.
Defined.

(** X5: In apply mode, when the fetched repository does not comply and the
    remote [update] rejects, [sync] throws the rejected value: it returns no
    list and writes no debug entry, and the trace ends with the [update]
    call. *)
Theorem update_failure_propagates {R} (this : Archive R) (w : World R)
    (response data error : jsval) (r' r'' : R) :
  nop this = false ->
  repos_get (github this) (get_params this) (remote w) = (Return response, r') ->
  get_prop response "data" = Return data ->
  truthy data = true ->
  compliant (desired_state this) (opt_chain data "archived") = false ->
  repos_update (github this) (update_params this (desired_state this)) r'
  = (Throw error, r'') ->
  sync this w
  = (Throw error,
     {| repository := data; remote := r'';
        trace := trace w ++ [ReposGet (get_params this);
                             ReposUpdate (update_params this (desired_state this))] |}).
Proof.
  intros Hnop Hget Hdata Ht Hc Hup.
  rewrite (sync_acts this w response data r' Hget Hdata Ht Hc).
  unfold updateRepoArchiveStatus. rewrite Hnop. unfold_monad. simpl.
  rewrite Hup. rewrite <- app_assoc. reflexivity.
Qed.

Lemma update_failure_propagates_witness :
  fst (sync (Stub.plugin Stub.read_only false (VObj [("archived", VBool true)]))
         (Double.start (Some [("archived", VBool false)])))
  = Throw Stub.forbidden.
Proof.
  rewrite (update_failure_propagates
             (Stub.plugin Stub.read_only false (VObj [("archived", VBool true)]))
             (Double.start (Some [("archived", VBool false)]))
             (VObj [("data", VObj [("archived", VBool false)])])
             (VObj [("archived", VBool false)]) Stub.forbidden
             (Some [("archived", VBool false)]) (Some [("archived", VBool false)])
             eq_refl eq_refl eq_refl eq_refl eq_refl eq_refl).
  reflexivity.
Defined.

(** X6: In preview mode, when the fetched repository does not comply and the
    endpoint accessor throws, [sync] throws that value and returns no
    artifact; the remote side is as the [get] call left it. *)
Theorem endpoint_failure_propagates {R} (this : Archive R) (w : World R)
    (response data error : jsval) (r' : R) :
  nop this = true ->
  repos_get (github this) (get_params this) (remote w) = (Return response, r') ->
  get_prop response "data" = Return data ->
  truthy data = true ->
  compliant (desired_state this) (opt_chain data "archived") = false ->
  repos_update_endpoint (github this) (settings this) = Throw error ->
  sync this w
  = (Throw error,
     {| repository := data; remote := r';
        trace := trace w ++ [ReposGet (get_params this);
                             ReposUpdateEndpoint (settings this)] |}).
Proof.
  intros Hnop Hget Hdata Ht Hc Hep.
  rewrite (sync_acts this w response data r' Hget Hdata Ht Hc).
  unfold updateRepoArchiveStatus. rewrite Hnop. unfold_monad. simpl.
  rewrite Hep. rewrite <- app_assoc. reflexivity.
Qed.

Lemma endpoint_failure_propagates_witness :
  fst (sync (Stub.plugin Stub.read_only true (VObj [("archived", VBool true)]))
         (Double.start (Some [("archived", VBool false)])))
  = Throw TypeError.
Proof.
  rewrite (endpoint_failure_propagates
             (Stub.plugin Stub.read_only true (VObj [("archived", VBool true)]))
             (Double.start (Some [("archived", VBool false)]))
             (VObj [("data", VObj [("archived", VBool false)])])
             (VObj [("archived", VBool false)]) TypeError
             (Some [("archived", VBool false)])
             eq_refl eq_refl eq_refl eq_refl eq_refl eq_refl).
  reflexivity.
Defined.

(** ** What the Reconciler calls, and in which order *)

(** X7: Every run of [sync] starts with the one [get] call, and what follows is
    one of: nothing (the fetch threw), the not-found warning, the
    no-change debug entry, the endpoint accessor alone (preview mode), or the
    [update] call alone or followed by its debug entry (apply mode).  The
    [archived] parameter of that [update] is a boolean, the desired state. *)
Theorem sync_trace_shapes {R} (this : Archive R) (w : World R) :
  exists rest,
    trace (snd (sync this w)) = (trace w ++ ReposGet (get_params this) :: rest)%list
    /\ (rest = []
        \/ rest = [not_found_message this]
        \/ rest = [no_change_message this]
        \/ (nop this = true /\ rest = [ReposUpdateEndpoint (settings this)])
        \/ (nop this = false
            /\ exists b,
                 desired_state this = VBool b
                 /\ (rest = [ReposUpdate (update_params this (VBool b))]
                     \/ exists data,
                          rest = [ReposUpdate (update_params this (VBool b));
                                  done_message this (VBool b) data]))).
Proof.
  rewrite sync_run. pose proof (getRepo_run this w) as Hrepo.
  destruct (getRepo this w) as [[data|e] w1]; injection Hrepo as _ ->.
  - cbv zeta. destruct (truthy data).
    + rewrite decision_compliant.
      destruct (compliant (desired_state this) (opt_chain data "archived")) eqn:Hc.
      * exists [no_change_message this]. split; [|auto].
        unfold logged, fetched; simpl. rewrite <- app_assoc. reflexivity.
      * pose proof (acting_desired_bool this _ Hc) as Hb.
        set (w2 := {| repository := data;
                      remote := remote (fetched this w _ (repository w));
                      trace := trace (fetched this w _ (repository w)) |}).
        assert (Hshape : forall b, desired_state this = VBool b ->
          exists rest,
            trace (snd (updateRepoArchiveStatus this (VBool b) w2))
            = (trace w ++ ReposGet (get_params this) :: rest)%list
            /\ ((nop this = true /\ rest = [ReposUpdateEndpoint (settings this)])
                \/ (nop this = false
                    /\ exists b,
                         desired_state this = VBool b
                         /\ (rest = [ReposUpdate (update_params this (VBool b))]
                             \/ exists data,
                                  rest = [ReposUpdate (update_params this (VBool b));
                                          done_message this (VBool b) data])))).
        { intros b Hd.
          destruct (update_trace this (VBool b) w2) as (added & Htr & Hadded).
          exists added. split.
          - rewrite Htr. unfold w2, fetched; simpl. rewrite <- app_assoc. reflexivity.
          - destruct (nop this).
            + left. split; [reflexivity|exact Hadded].
            + right. split; [reflexivity|]. exists b. split; [exact Hd|exact Hadded]. }
        destruct (truthy (desired_state this));
          destruct (Hshape _ Hb) as (rest & Htr & Hrest);
          exists rest;
          (split; [|tauto]);
          destruct (updateRepoArchiveStatus this _ w2) as [[x|e] w3]; exact Htr.
    + exists [not_found_message this]. split; [|auto].
      unfold logged, fetched; simpl. rewrite <- app_assoc. reflexivity.
  - exists []. split; [reflexivity|auto].
Qed.

(** X8: In preview mode [sync] never calls [update]: the trace gains no
    [update] call and the remote side is exactly as the [get] call left it,
    whatever the calls answer. *)
Theorem preview_never_updates {R} (this : Archive R) (w : World R) :
  nop this = true ->
  updates_in (trace (snd (sync this w))) = updates_in (trace w)
  /\ remote (snd (sync this w))
     = snd (repos_get (github this) (get_params this) (remote w)).
Proof.
  intros Hnop. split.
  - destruct (sync_trace_shapes this w) as (rest & Htr & Hrest).
    rewrite Htr, updates_in_app. simpl.
    destruct Hrest as [-> | [-> | [-> | [[_ ->] | [Hf _]]]]];
      try (simpl; apply app_nil_r).
    rewrite Hnop in Hf. discriminate Hf.
  - rewrite sync_run. pose proof (getRepo_run this w) as Hrepo.
    destruct (getRepo this w) as [[data|e] w1]; injection Hrepo as _ ->;
      [|reflexivity].
    cbv zeta. destruct (truthy data); [|reflexivity].
    destruct (decision _ _); [reflexivity| |].
    + pose proof (update_preview_remote this (VBool true)
                    {| repository := data;
                       remote := remote (fetched this w
                         (snd (repos_get (github this) (get_params this) (remote w)))
                         (repository w));
                       trace := trace (fetched this w
                         (snd (repos_get (github this) (get_params this) (remote w)))
                         (repository w)) |} Hnop) as Hr.
      destruct (updateRepoArchiveStatus this (VBool true) _) as [[x|e] w3]; exact Hr.
    + pose proof (update_preview_remote this (VBool false)
                    {| repository := data;
                       remote := remote (fetched this w
                         (snd (repos_get (github this) (get_params this) (remote w)))
                         (repository w));
                       trace := trace (fetched this w
                         (snd (repos_get (github this) (get_params this) (remote w)))
                         (repository w)) |} Hnop) as Hr.
      destruct (updateRepoArchiveStatus this (VBool false) _) as [[x|e] w3]; exact Hr.
Qed.

Lemma preview_never_updates_witness :
  remote (snd (sync (Double.plugin true (VObj [("archived", VBool true)]))
                 (Double.start (Some [("archived", VBool false)]))))
  = Some [("archived", VBool false)].
Proof.
  destruct (preview_never_updates
              (Double.plugin true (VObj [("archived", VBool true)]))
              (Double.start (Some [("archived", VBool false)])) eq_refl)
    as [_ Hremote].
  rewrite Hremote. reflexivity.
Defined.

(** X9: With no [archived] setting ([settings?.archived] is [undefined]),
    [sync] never acts: it sends no [update], asks for no endpoint
    descriptor, and returns the empty list whenever the fetch returns,
    whatever the repository looks like. *)
Theorem unset_never_acts {R} (this : Archive R) (w : World R) :
  raw_archived this = VUndefined ->
  updates_in (trace (snd (sync this w))) = updates_in (trace w)
  /\ remote (snd (sync this w))
     = snd (repos_get (github this) (get_params this) (remote w))
  /\ (forall data w1, getRepo this w = (Return data, w1) ->
        fst (sync this w) = Return [])
  /\ (forall e w1, getRepo this w = (Throw e, w1) -> sync this w = (Throw e, w1)).
Proof.
  intros Hraw.
  assert (Hc : forall observed, compliant (desired_state this) observed = true).
  { intros observed. unfold desired_state. rewrite Hraw. reflexivity. }
  rewrite sync_run. pose proof (getRepo_run this w) as Hrepo.
  destruct (getRepo this w) as [[data|e] w1]; injection Hrepo as _ ->.
  - cbv zeta. rewrite decision_compliant, Hc.
    destruct (truthy data); (split; [|split; [|split]]);
      try reflexivity; try discriminate;
      unfold logged, fetched; simpl; rewrite ?updates_in_app; simpl;
      rewrite ?app_nil_r; reflexivity.
  - split; [|split; [|split]]; try reflexivity; try discriminate.
    + unfold fetched; simpl. rewrite updates_in_app. apply app_nil_r.
    + intros e' w1' H. injection H as <- <-. reflexivity.
Qed.

Lemma unset_never_acts_witness :
  fst (sync (Double.plugin false (VObj [("private", VBool true)]))
         (Double.start (Some [("archived", VBool true)])))
  = Return [].
Proof.
  destruct (unset_never_acts (Double.plugin false (VObj [("private", VBool true)]))
              (Double.start (Some [("archived", VBool true)])) eq_refl)
    as (_ & _ & Hreturns & _).
  apply (Hreturns (VObj [("archived", VBool true)])
           (snd (getRepo (Double.plugin false (VObj [("private", VBool true)]))
                   (Double.start (Some [("archived", VBool true)]))))).
  reflexivity.
Defined.

(** ** The report of [getState] *)

(** X10: [getState] only reads: whatever the calls answer, it makes the one
    [get] call and nothing else (no [update], no endpoint descriptor, no log
    entry); it throws only what [getRepo] throws, and otherwise stores the
    fetched repository in [this.repository] and reports its [archived]
    attribute as [isArchived]. *)
Theorem getState_read_only {R} (this : Archive R) (w : World R) :
  trace (snd (getState this w)) = (trace w ++ [ReposGet (get_params this)])%list
  /\ remote (snd (getState this w))
     = snd (repos_get (github this) (get_params this) (remote w))
  /\ (forall e w1, getRepo this w = (Throw e, w1) -> getState this w = (Throw e, w1))
  /\ (forall data w1, getRepo this w = (Return data, w1) ->
        exists report,
          fst (getState this w) = Return report
          /\ opt_chain report "isArchived" = opt_chain data "archived"
          /\ repository (snd (getState this w)) = data).
Proof.
  rewrite getState_run. pose proof (getRepo_run this w) as Hrepo.
  destruct (getRepo this w) as [[data|e] w1]; injection Hrepo as _ ->.
  - split; [reflexivity|]. split; [reflexivity|]. split; [discriminate|].
    intros data' w1' H. injection H as <- _.
    eexists. split; [reflexivity|]. split; reflexivity.
  - split; [reflexivity|]. split; [reflexivity|]. split; [|discriminate].
    intros e' w1' H. injection H as <- <-. reflexivity.
Qed.

Lemma getState_read_only_witness :
  exists report,
    fst (getState (Double.plugin false (VObj [("archived", VBool false)]))
           (Double.start (Some [("archived", VBool true)]))) = Return report
    /\ opt_chain report "isArchived" = VBool true.
Proof.
  destruct (getState_read_only (Double.plugin false (VObj [("archived", VBool false)]))
              (Double.start (Some [("archived", VBool true)])))
    as (_ & _ & _ & Hreport).
  destruct (Hreport (VObj [("archived", VBool true)])
              (snd (getRepo (Double.plugin false (VObj [("archived", VBool false)]))
                      (Double.start (Some [("archived", VBool true)])))) eq_refl)
    as (report & Hrun & Harchived & _).
  exists report. split; [exact Hrun|exact Harchived].
Defined.

(** X11: When the fetch gives a repository (a truthy value), the report of
    [getState] predicts [sync] from the same world: [sync] returns the empty
    list exactly when the reported [shouldArchive] and [shouldUnarchive] are
    both falsy. *)
Theorem getState_predicts_sync {R} (this : Archive R) (w : World R)
    (data : jsval) (w1 : World R) :
  getRepo this w = (Return data, w1) ->
  truthy data = true ->
  exists report,
    fst (getState this w) = Return report
    /\ (fst (sync this w) = Return []
        <-> truthy (opt_chain report "shouldArchive") = false
            /\ truthy (opt_chain report "shouldUnarchive") = false).
Proof.
  intros Hrepo Ht. rewrite getState_run, sync_run, Hrepo. cbv zeta. rewrite Ht.
  eexists. split; [reflexivity|]. cbn [fst opt_chain lookup String.eqb Ascii.eqb Bool.eqb].
  unfold decision.
  destruct (truthy (archive_answer _ _)), (truthy (unarchive_answer _ _));
    cbn [negb andb]; try (destruct (updateRepoArchiveStatus _ _ _) as [[x|e] w3]);
    cbn [fst]; intuition discriminate.
Qed.

Lemma getState_predicts_sync_witness :
  exists report,
    fst (getState (Double.plugin false (VObj [("archived", VStr "true")]))
           (Double.start (Some [("archived", VBool true)]))) = Return report
    /\ fst (sync (Double.plugin false (VObj [("archived", VStr "true")]))
              (Double.start (Some [("archived", VBool true)]))) = Return [].
Proof.
  destruct (getState_predicts_sync
              (Double.plugin false (VObj [("archived", VStr "true")]))
              (Double.start (Some [("archived", VBool true)]))
              (VObj [("archived", VBool true)])
              (snd (getRepo (Double.plugin false (VObj [("archived", VStr "true")]))
                      (Double.start (Some [("archived", VBool true)]))))
              eq_refl eq_refl) as (report & Hrun & Hiff).
  exists report. split; [exact Hrun|].
  apply Hiff. injection Hrun as <-. split; reflexivity.
Defined.

(** ** The two answers as values *)

(** X12: [shouldArchive] always returns a boolean.  [shouldUnarchive] returns
    [false] when no desired state is set; otherwise it returns a boolean only
    when the observed [archived] attribute is truthy, and the attribute
    itself (for instance [undefined], [null], [0] or the empty string) when
    it is falsy.  Neither changes the world. *)
Theorem answers_as_values {R} (this : Archive R) (arg : jsval) (w : World R) :
  exists d b u,
    getDesiredArchiveState this w = (Return d, w)
    /\ shouldArchive this arg w = (Return (VBool b), w)
    /\ shouldUnarchive this arg w = (Return u, w)
    /\ (d = VNull -> b = false /\ u = VBool false)
    /\ (d <> VNull ->
        b = negb (truthy (observed_archived arg w)) && truthy d
        /\ (truthy (observed_archived arg w) = false -> u = observed_archived arg w)
        /\ (truthy (observed_archived arg w) = true -> u = VBool (negb (truthy d)))).
Proof.
  do 3 eexists.
  split; [apply getDesiredArchiveState_run|].
  split; [rewrite shouldArchive_run, archive_answer_bool; reflexivity|].
  split; [apply shouldUnarchive_run|].
  destruct (normalize (raw_archived this)); simpl; unfold js_and, js_not; simpl.
  - split; [auto|]. intros H; now elim H.
  - split; [discriminate|]. intros _.
    destruct (truthy (observed_archived arg w)); simpl; repeat split;
      try reflexivity; discriminate.
  - split; [discriminate|]. intros _.
    destruct (truthy (observed_archived arg w)); simpl; repeat split;
      try reflexivity; discriminate.
Qed.

Lemma answers_as_values_witness :
  shouldUnarchive (Double.plugin false (VObj [("archived", VBool false)]))
    (VObj [("archived", VStr "")]) (Double.start None)
  = (Return (VStr ""), Double.start None).
Proof.
  destruct (answers_as_values (Double.plugin false (VObj [("archived", VBool false)]))
              (VObj [("archived", VStr "")]) (Double.start None))
    as (d & b & u & Hd & _ & Hu & _ & Hset).
  rewrite Hu. injection Hd as <-.
  destruct (Hset ltac:(discriminate)) as (_ & Hfalsy & _).
  rewrite (Hfalsy eq_refl). reflexivity.
Defined.

(** ** The stored snapshot *)

(** X13: After [sync] returned one entry, [this.repository] is still the
    repository as fetched before the executor ran: [isArchived] reports the
    attribute opposite to the desired state, and [shouldArchive] and
    [shouldUnarchive] called without argument still ask for the action, until
    a later fetch. *)
Theorem snapshot_not_refreshed {R} (this : Archive R) (w w1 : World R) (x : entry) :
  sync this w = (Return [x], w1) ->
  exists v a u,
    isArchived w1 = (Return v, w1)
    /\ truthy v = negb (truthy (desired_state this))
    /\ shouldArchive this VUndefined w1 = (Return a, w1)
    /\ shouldUnarchive this VUndefined w1 = (Return u, w1)
    /\ decision a u <> ActNone.
Proof.
  intros Hsync.
  destruct (sync_one_inv this w w1 x Hsync) as (data & w0 & _ & _ & Hc & Hup).
  pose proof (update_keeps_repository this (desired_state this)
                (Build_World data (remote w0) (trace w0))) as Hkeep.
  rewrite Hup in Hkeep. cbn [snd repository] in Hkeep.
  do 3 eexists.
  split; [reflexivity|]. rewrite Hkeep.
  split.
  { pose proof (acting_desired_bool this _ Hc) as Hb. rewrite Hb in Hc.
    cbn [compliant truthy] in Hc.
    destruct (truthy (opt_chain data "archived")), (truthy (desired_state this));
      try reflexivity; discriminate Hc. }
  split; [apply shouldArchive_run|]. split; [apply shouldUnarchive_run|].
  unfold observed_archived. cbn [default_param]. rewrite Hkeep.
  rewrite decision_compliant, Hc.
  destruct (truthy (desired_state this)); discriminate.
Qed.

Lemma snapshot_not_refreshed_witness :
  exists v,
    isArchived
      (snd (sync (Double.plugin false (VObj [("archived", VBool true)]))
              (Double.start (Some [("archived", VBool false)]))))
    = (Return v,
       snd (sync (Double.plugin false (VObj [("archived", VBool true)]))
              (Double.start (Some [("archived", VBool false)]))))
    /\ truthy v = false.
Proof.
  destruct (snapshot_not_refreshed
              (Double.plugin false (VObj [("archived", VBool true)]))
              (Double.start (Some [("archived", VBool false)]))
              (snd (sync (Double.plugin false (VObj [("archived", VBool true)]))
                      (Double.start (Some [("archived", VBool false)]))))
              (Plain VUndefined) eq_refl) as (v & a & u & Hv & Ht & _).
  exists v. split; [exact Hv|exact Ht].
Defined.

(** ** No state carried between calls *)

(** X14: What [sync] returns or throws, what [getState] reports, and what they
    leave on the remote side depend only on the remote side and the
    settings: not on the repository an earlier call left in
    [this.repository], nor on the calls made before.  When the fetch returns,
    [sync] replaces [this.repository] by what it fetched. *)
Theorem sync_ignores_earlier_state {R} (this : Archive R) (w w' : World R) :
  remote w = remote w' ->
  fst (sync this w) = fst (sync this w')
  /\ remote (snd (sync this w)) = remote (snd (sync this w'))
  /\ fst (getState this w) = fst (getState this w')
  /\ (forall data w1, getRepo this w = (Return data, w1) ->
        repository (snd (sync this w)) = data).
Proof.
  intros Hr.
  rewrite !sync_run, !getState_run, !getRepo_run. rewrite <- Hr.
  destruct (fetch_outcome _) as [data|e]; cbv zeta.
  - destruct (truthy data).
    + destruct (decision _ _).
      * repeat split. intros d w1 H. injection H as <- _. reflexivity.
      * match goal with
        | |- context [updateRepoArchiveStatus this ?a ?W] =>
            match goal with
            | |- context [updateRepoArchiveStatus this a ?W'] =>
                lazymatch W' with
                | W => fail
                | _ =>
                    destruct (update_same_remote this a W W' eq_refl) as [Hf Hm];
                    pose proof (update_keeps_repository this a W) as Hk
                end
            end
        end.
        destruct (updateRepoArchiveStatus this _ _) as [[x|e] w3];
          destruct (updateRepoArchiveStatus this _ _) as [[x'|e'] w3'];
          cbn [fst snd] in *; try discriminate Hf;
          injection Hf as ->; repeat split; try exact Hm;
          intros d w1 H; injection H as <- _; exact Hk.
      * match goal with
        | |- context [updateRepoArchiveStatus this ?a ?W] =>
            match goal with
            | |- context [updateRepoArchiveStatus this a ?W'] =>
                lazymatch W' with
                | W => fail
                | _ =>
                    destruct (update_same_remote this a W W' eq_refl) as [Hf Hm];
                    pose proof (update_keeps_repository this a W) as Hk
                end
            end
        end.
        destruct (updateRepoArchiveStatus this _ _) as [[x|e] w3];
          destruct (updateRepoArchiveStatus this _ _) as [[x'|e'] w3'];
          cbn [fst snd] in *; try discriminate Hf;
          injection Hf as ->; repeat split; try exact Hm;
          intros d w1 H; injection H as <- _; exact Hk.
    + repeat split. intros d w1 H. injection H as <- _. reflexivity.
  - repeat split. intros d w1 H. discriminate H.
Qed.

Lemma sync_ignores_earlier_state_witness :
  fst (sync (Double.plugin false (VObj [("archived", VBool true)]))
         {| repository := VObj [("archived", VBool true)];
            remote := Some [("archived", VBool false)];
            trace := [LogDebug [VStr "earlier"]] |})
  = Return [Plain VUndefined].
Proof.
  destruct (sync_ignores_earlier_state
              (Double.plugin false (VObj [("archived", VBool true)]))
              {| repository := VObj [("archived", VBool true)];
                 remote := Some [("archived", VBool false)];
                 trace := [LogDebug [VStr "earlier"]] |}
              (Double.start (Some [("archived", VBool false)])) eq_refl)
    as [Hsame _].
  rewrite Hsame. reflexivity.
Defined.
